(** * pbix_analyzer: a shallow embedding of [PBIXAnalyzer]

    The development follows [src/pbix_analyzer/analyzer.py].  Python values
    are modelled as follows:

    - [str] is [string]; one [ascii] stands for one character, so widths and
      lengths count characters as Python does for the Latin-1 range;
    - [int] is [N] for the (non-negative) sizes read from an archive and
      [nat] for [len];
    - the [dict] built per archive entry is a [gmap string string];
    - an exception is a class together with its message;
    - the file system, the standard output stream and the attributes of the
      [PBIXAnalyzer] instance are threaded through a state and error monad;
      the file system answers the lookup of a path with what is there or
      with the error of the operating system.

    The standard library that the module calls is modelled next to the code
    that uses it: [pathlib] for POSIX paths, [print], [str.lower], the
    format specifications [<60], [>15] and [,].  [zipfile]'s reader of the
    central directory is a parameter of the methods that use it. *)

From Stdlib Require Import ZArith NArith Ascii String List Lia Bool.
From Stdlib Require Import Decimal DecimalFacts DecimalPos DecimalN DecimalString.
From stdpp Require Import base option list strings gmap.
From Equations Require Import Equations.

(** Recursive definitions are unfolded by computation, without appeal to
    functional extensionality. *)
Unset Equations With Funext.

Local Open Scope string_scope.
Local Open Scope list_scope.

(** ** Python [str] operations used by the module *)

Module PyStr.

(** [c.lower()] for one character: [A]..[Z] and the accented capitals
    of Latin-1 (all of 192..222 but the multiplication sign) move up by
    32. *)
Definition lower_char (c : ascii) : ascii :=
  let n := nat_of_ascii c in
  if (65 <=? n)%nat && (n <=? 90)%nat
     || (192 <=? n)%nat && (n <=? 222)%nat && negb (n =? 215)%nat
  then ascii_of_nat (n + 32)
  else c.

(** [s.lower()] *)
Fixpoint lower (s : string) : string :=
  match s with
  | EmptyString => EmptyString
  | String c s' => String (lower_char c) (lower s')
  end.

(** [s.rfind(c)]: the highest index of [c] in [s], or [-1]. *)
Fixpoint rfind (c : ascii) (s : string) : Z :=
  match s with
  | EmptyString => (-1)%Z
  | String a s' =>
      let r := rfind c s' in
      if (0 <=? r)%Z then (1 + r)%Z
      else if Ascii.eqb a c then 0%Z else (-1)%Z
  end.

(** [s[i:]] for [0 <= i]. *)
Fixpoint slice_from (i : nat) (s : string) : string :=
  match i, s with
  | O, _ => s
  | S _, EmptyString => EmptyString
  | S i', String _ s' => slice_from i' s'
  end.

(** [s.split(sep)] for a one-character separator. *)
Fixpoint split (sep : ascii) (s : string) : list string :=
  match s with
  | EmptyString => [EmptyString]
  | String a s' =>
      if Ascii.eqb a sep then EmptyString :: split sep s'
      else match split sep s' with
           | [] => [String a EmptyString]
           | h :: t => String a h :: t
           end
  end.

(** [sep.join(l)] *)
Fixpoint join (sep : string) (l : list string) : string :=
  match l with
  | [] => EmptyString
  | [x] => x
  | x :: rest => x +:+ sep +:+ join sep rest
  end.

(** [c * n] for a one-character string [c]. *)
Fixpoint replicate (n : nat) (c : ascii) : string :=
  match n with
  | O => EmptyString
  | S n' => String c (replicate n' c)
  end.

(** [format(s, '<w')]: pad with spaces on the right up to width [w];
    a longer [s] is returned whole. *)
Definition ljust (w : nat) (s : string) : string :=
  s +:+ replicate (w - String.length s) " ".

(** [format(s, '>w')]: pad with spaces on the left up to width [w]. *)
Definition rjust (w : nat) (s : string) : string :=
  replicate (w - String.length s) " " +:+ s.

(** Number of leading occurrences of [c]. *)
Fixpoint count_leading (c : ascii) (s : string) : nat :=
  match s with
  | String a s' => if Ascii.eqb a c then S (count_leading c s') else O
  | EmptyString => O
  end.

(** [s.lstrip(c)] *)
Definition lstrip (c : ascii) (s : string) : string :=
  slice_from (count_leading c s) s.

End PyStr.

(** ** [pathlib.PurePosixPath]: parsing, [name], [suffix], [str] *)

Module Pathlib.

(** A parsed path: the root ([""], ["/"] or ["//"]) and the components
    after it. *)
Record Path : Type := MkPath { root : string; parts : list string }.

(** [_PosixFlavour.splitroot]: exactly two leading slashes are kept, any
    other positive number collapses to one. *)
Definition splitroot (part : string) : string * string :=
  let k := PyStr.count_leading "/" part in
  let stripped := PyStr.lstrip "/" part in
  match k with
  | O => (EmptyString, part)
  | 2 => ("//", stripped)
  | _ => ("/", stripped)
  end.

(** Components that are empty or ["."] are dropped by the parser. *)
Definition keep_part (x : string) : bool :=
  negb (String.eqb x EmptyString) && negb (String.eqb x ".").

(** [Path(s)] for one argument. *)
Definition parse (s : string) : Path :=
  let '(r, rel) := splitroot s in
  MkPath r (List.filter keep_part (PyStr.split "/" rel)).

(** [p.name]: the final component, [''] when there is none. *)
Definition name (p : Path) : string := List.last (parts p) EmptyString.

(** [p.suffix]: the part of the name from its last dot, unless that dot
    is the first or the last character of the name (the rule
    [0 < i < len(name) - 1] of CPython 3.8 to 3.13). *)
Definition suffix (p : Path) : string :=
  let nm := name p in
  let i := PyStr.rfind "." nm in
  if (0 <? i)%Z && (i <? Z.of_nat (String.length nm) - 1)%Z
  then PyStr.slice_from (Z.to_nat i) nm
  else EmptyString.

(** [str(p)] *)
Definition to_str (p : Path) : string :=
  match root p, parts p with
  | EmptyString, [] => "."
  | r, ps => r +:+ PyStr.join "/" ps
  end.

End Pathlib.

(** ** Python [int] to text: [str(n)] and [format(n, ',')] *)

Module PyInt.

Definition digit_char (d : N) : ascii := ascii_of_N (48 + d).

(** The digits of [n], least significant first, prepended to [acc]:
    the usual division loop.  [fuel] bounds the number of digits. *)
Fixpoint str_loop (fuel : nat) (n : N) (acc : string) : string :=
  match fuel with
  | O => acc
  | S fuel' =>
      let acc' := String (digit_char (n mod 10)) acc in
      if (n / 10 =? 0)%N then acc' else str_loop fuel' (n / 10) acc'
  end.

(** [str(n)] for [0 <= n]; a number has no more decimal digits than
    binary ones. *)
Definition str (n : N) : string :=
  str_loop (S (N.to_nat (N.size n))) n EmptyString.

(** The grouping pass of [format(n, ',')]: a comma is written in front of
    every complete group of three characters counted from the right. *)
Fixpoint group3 (s : string) : string :=
  match s with
  | EmptyString => EmptyString
  | String c s' =>
      let k := String.length s' in
      if (0 <? k)%nat && (k mod 3 =? 0)%nat
      then String c (String "," (group3 s'))
      else String c (group3 s')
  end.

(** [format(n, ',')], the [{n:,}] of an f-string. *)
Definition format_comma (n : N) : string := group3 (str n).

End PyInt.

(** ** Exceptions, the world, and the monad the methods run in *)

Inductive exn_class : Type :=
  | FileNotFoundError
  | IsADirectoryError
  | ValueError
  | KeyError
  | AttributeError
  | BadZipFile
  | OtherError (cls : string).

Global Instance exn_class_eq_dec : EqDecision exn_class.
Proof. solve_decision. Defined.

Record exn : Type := Raised { exn_cls : exn_class; exn_msg : string }.

(** What a path names on disk. *)
Inductive node : Type :=
  | RegularFile (content : list Byte.byte)
  | Directory.

(** The errors with which the operating system refuses the lookup of a
    path ([stat(2)]). *)
Inductive errno : Type :=
  | EACCES
  | EBADF
  | ELOOP
  | ENAMETOOLONG
  | ENOENT
  | ENOTDIR.

Definition errno_code (e : errno) : N :=
  match e with
  | EACCES => 13
  | EBADF => 9
  | ELOOP => 40
  | ENAMETOOLONG => 36
  | ENOENT => 2
  | ENOTDIR => 20
  end.

Definition strerror (e : errno) : string :=
  match e with
  | EACCES => "Permission denied"
  | EBADF => "Bad file descriptor"
  | ELOOP => "Too many levels of symbolic links"
  | ENAMETOOLONG => "File name too long"
  | ENOENT => "No such file or directory"
  | ENOTDIR => "Not a directory"
  end.

(** The subclass of [OSError] that Python raises for an error number. *)
Definition os_error_class (e : errno) : exn_class :=
  match e with
  | ENOENT => FileNotFoundError
  | ENOTDIR => OtherError "NotADirectoryError"
  | EACCES => OtherError "PermissionError"
  | EBADF | ELOOP | ENAMETOOLONG => OtherError "OSError"
  end.

(** [OSError(errno, strerror, filename)] as [os.stat] and [open] raise it. *)
Definition os_exception (e : errno) (path : string) : exn :=
  Raised (os_error_class e)
    ("[Errno " +:+ PyInt.str (errno_code e) +:+ "] " +:+ strerror e
     +:+ ": '" +:+ path +:+ "'").

(** [pathlib._ignore_error]: the errors that [Path.exists] takes for "not
    there" (CPython 3.8 to 3.13); any other error is raised. *)
Definition ignored_by_exists (e : errno) : bool :=
  match e with
  | ENOENT | ENOTDIR | EBADF | ELOOP => true
  | EACCES | ENAMETOOLONG => false
  end.

(** The answer to the lookup of a path. *)
Inductive lookup : Type :=
  | Found (n : node)
  | Fails (e : errno).

(** The file system answers a lookup by the text of a path. *)
Definition filesystem : Type := string → lookup.

(** The attributes of the [PBIXAnalyzer] instance the methods are called
    on; [None] before [__init__] has assigned [self.pbix_path]. *)
Record instance : Type := MkInstance { pbix_path : option Pathlib.Path }.

Record world : Type := MkWorld {
  self : instance;
  fs : filesystem;
  stdout : string
}.

Definition M (A : Type) : Type := world → (exn + A) * world.

Definition ret {A} (a : A) : M A := λ w, (inr a, w).

Definition bind {A B} (m : M A) (k : A → M B) : M B :=
  λ w, match m w with
       | (inl e, w') => (inl e, w')
       | (inr a, w') => k a w'
       end.

Definition raise {A} (c : exn_class) (msg : string) : M A :=
  λ w, (inl (Raised c msg), w).

(** [try: body / except cls: handler]: only an exception of class [cls] is
    caught; the state changes made by [body] before it raised are kept. *)
Definition try_except {A} (body : M A) (cls : exn_class) (handler : M A) : M A :=
  λ w, match body w with
       | (inl e, w') => if decide (exn_cls e = cls) then handler w' else (inl e, w')
       | r => r
       end.

Global Instance M_ret : MRet M := @ret.
Global Instance M_bind : MBind M := λ A B k m, bind m k.

(** [for x in l: body x] *)
Fixpoint for_each {A} (l : list A) (body : A → M unit) : M unit :=
  match l with
  | [] => ret tt
  | x :: rest => body x ;; for_each rest body
  end.

Definition nl : string := String "010" EmptyString.

(** [print(s)]: the text and a newline go to standard output. *)
Definition print (s : string) : M unit :=
  λ w, (inr tt, MkWorld (self w) (fs w) (stdout w +:+ s +:+ nl)).

(** [self.pbix_path = p] *)
Definition set_pbix_path (p : Pathlib.Path) : M unit :=
  λ w, (inr tt, MkWorld (MkInstance (Some p)) (fs w) (stdout w)).

(** [self.pbix_path] *)
Definition get_pbix_path : M Pathlib.Path :=
  λ w, match pbix_path (self w) with
       | Some p => (inr p, w)
       | None => (inl (Raised AttributeError "pbix_path"), w)
       end.

(** What [p.exists()] answers on a given file system: [os.stat] is called;
    an error that [_ignore_error] accepts gives [False], another one is
    raised. *)
Definition exists_answer (f : filesystem) (p : Pathlib.Path) : exn + bool :=
  match f (Pathlib.to_str p) with
  | Found _ => inr true
  | Fails e =>
      if ignored_by_exists e then inr false
      else inl (os_exception e (Pathlib.to_str p))
  end.

(** [p.exists()] *)
Definition path_exists (p : Pathlib.Path) : M bool :=
  λ w, (exists_answer (fs w) p, w).

(** [d[k]] on a dict *)
Definition getitem (d : gmap string string) (k : string) : M string :=
  match d !! k with
  | Some v => ret v
  | None => raise KeyError k
  end.

(** ** [zipfile] *)

(** The two attributes of [ZipInfo] that the module reads. *)
Record ZipInfo : Type := MkZipInfo { filename : string; file_size : N }.

Section Analyzer.

(** [zipfile] reads the end-of-central-directory record and the central
    directory from the bytes of the file.  The reader is a parameter: it
    returns the [filelist] in central-directory order, or the exception
    it raises. *)
Variable read_central_directory : list Byte.byte → exn + list ZipInfo.

(** [zipfile.ZipFile(p, 'r')] used as a context manager: the file is
    opened for reading, the central directory is read, and the handle is
    closed when the block is left.  Nothing is written. *)
Definition ZipFile_open (p : Pathlib.Path) : M (list ZipInfo) :=
  λ w, match fs w (Pathlib.to_str p) with
       | Fails e => (inl (os_exception e (Pathlib.to_str p)), w)
       | Found Directory =>
           (inl (Raised IsADirectoryError
                   ("[Errno 21] Is a directory: '"
                    +:+ Pathlib.to_str p +:+ "'")), w)
       | Found (RegularFile content) =>
           match read_central_directory content with
           | inl e => (inl e, w)
           | inr filelist => (inr filelist, w)
           end
       end.

(** *** [PBIXAnalyzer.__init__] *)
Definition __init__ (raw : string) : M unit :=
  set_pbix_path (Pathlib.parse raw) ;;
  p ← get_pbix_path ;
  found ← path_exists p ;
  if negb found
  then raise FileNotFoundError ("PBIX file not found: " +:+ raw)
  else
    p ← get_pbix_path ;
    if negb (String.eqb (PyStr.lower (Pathlib.suffix p)) ".pbix")
    then raise ValueError
           ("File must have .pbix extension, got: " +:+ Pathlib.suffix p)
    else mret tt.

(** The dict appended for one [ZipInfo]. *)
Definition entry_dict (file_info : ZipInfo) : gmap string string :=
  {[ "name" := filename file_info;
     "size" := PyInt.format_comma (file_size file_info) +:+ " bytes" ]}.

(** The [for] loop of [list_contents]: one [append] per element of
    [filelist]. *)
Definition collect (filelist : list ZipInfo) (contents : list (gmap string string))
  : list (gmap string string) :=
  fold_left (λ acc file_info, acc ++ [entry_dict file_info]) filelist contents.

(** *** [PBIXAnalyzer.list_contents] *)
Definition list_contents : M (list (gmap string string)) :=
  try_except
    (p ← get_pbix_path ;
     filelist ← ZipFile_open p ;
     mret (collect filelist []))
    BadZipFile
    (p ← get_pbix_path ;
     raise ValueError
       ("Failed to open " +:+ Pathlib.to_str p +:+ " as a ZIP file. "
        +:+ "File may be corrupted.")).

(** One row of the report. *)
Definition print_item (item : gmap string string) : M unit :=
  name ← getitem item "name" ;
  size ← getitem item "size" ;
  print (PyStr.ljust 60 name +:+ " " +:+ PyStr.rjust 15 size).

(** *** [PBIXAnalyzer.print_contents] *)
Definition print_contents : M unit :=
  contents ← list_contents ;
  p ← get_pbix_path ;
  print (nl +:+ "Contents of " +:+ Pathlib.name p +:+ ":") ;;
  print (PyStr.replicate 80 "-") ;;
  for_each contents print_item ;;
  print (nl +:+ "Total files: " +:+ PyInt.str (N.of_nat (length contents))).

End Analyzer.

(** The newline character. *)
Definition newline : ascii := "010"%char.

(** ** The vocabulary of the specification *)

Module Spec.

(** The three conditions of the error taxonomy. *)
Inductive condition : Type := NotFound | InvalidExtension | CorruptArchive.

(** The three operations; each of them can fail. *)
Inductive operation : Type := Construct | ListEntries | RenderContents.

(** [s] ends with [t]. *)
Definition endswith (s t : string) : bool :=
  String.eqb (PyStr.slice_from (String.length s - String.length t) s) t
  && (String.length t <=? String.length s)%nat.

(** "The path ends, case-insensitively, in [.pbix]". *)
Definition ends_in_pbix (raw : string) : bool :=
  endswith (PyStr.lower raw) ".pbix".

(** "The extension, compared case-insensitively, is [.pbix]". *)
Definition has_pbix_extension (p : Pathlib.Path) : Prop :=
  PyStr.lower (Pathlib.suffix p) = ".pbix".

(** "The path exists". *)
Definition exists_in (f : filesystem) (p : Pathlib.Path) : Prop :=
  ∃ n, f (Pathlib.to_str p) = Found n.

(** The errors of a lookup that the existence test takes for "nothing is
    there". *)
Definition taken_for_absence : list errno := [ENOENT; ENOTDIR; EBADF; ELOOP].

(** "The existence test answers that nothing is there". *)
Definition absent_in (f : filesystem) (p : Pathlib.Path) : Prop :=
  ∃ e, f (Pathlib.to_str p) = Fails e ∧ In e taken_for_absence.

(** The invariant of the Target File Reference of a constructed
    inspector. *)
Definition bound (w : world) : Prop :=
  ∃ p, pbix_path (self w) = Some p ∧ exists_in (fs w) p ∧ has_pbix_extension p.

(** "A decimal integer": the decimal numeral of [n] as the standard
    library prints it. *)
Definition decimal (n : N) : string := NilZero.string_of_uint (N.to_uint n).

(** [k] times the character [c]. *)
Definition repeated (c : ascii) (k : nat) : string :=
  string_of_list_ascii (List.repeat c k).

(** A group of exactly three digits: the numeral of [m], with zeros in
    front up to three characters. *)
Definition three_digits (m : N) : string :=
  repeated "0" (3 - String.length (decimal m)) +:+ decimal m.

(** "A decimal integer with comma grouping separators": a number below
    one thousand is written plainly; a larger one is its thousands,
    grouped, then a comma, then its last three digits. *)
Equations? thousands (n : N) : string by wf (N.to_nat n) lt :=
  thousands n with decide (n < 1000)%N := {
    | left _ => decimal n
    | right _ => thousands (n / 1000) +:+ "," +:+ three_digits (n mod 1000) }.
Proof.
  assert (n / 1000 < n)%N; [ apply N.div_lt; lia | lia ].
Qed.

(** The text without its commas. *)
Fixpoint strip_commas (s : string) : string :=
  match s with
  | EmptyString => EmptyString
  | String c s' =>
      if Ascii.eqb c "," then strip_commas s' else String c (strip_commas s')
  end.

(** The number that a string of decimal digits denotes, continuing from
    the value [acc] of the digits already read. *)
Fixpoint decimal_value_from (acc : N) (s : string) : N :=
  match s with
  | EmptyString => acc
  | String c s' => decimal_value_from (10 * acc + (N_of_ascii c - 48)) s'
  end.

Definition decimal_value (s : string) : N := decimal_value_from 0 s.



(** A line of the report: its text and the line feed (character 10) that
    ends it. *)
Definition line (text : string) : string :=
  text +:+ String "010" EmptyString.

(** The separator rule: eighty dashes. *)
Definition rule : string :=
  "--------------------------------------------------------------------------------".


End Spec.

(** ** Sample files *)

Module Sample.

(** The 22 bytes of a ZIP archive without entries: an end-of-central-
    directory record and nothing else. *)
Definition empty_zip : list Byte.byte :=
  list_byte_of_string
    (String "P" (String "K" (String "005" (String "006"
       (PyStr.replicate 18 "000"))))).

(** Stands for the bytes of an archive with the entries [DataModel]
    (2048 bytes) and [Report/Layout] (512 bytes). *)
Definition two_entries_zip : list Byte.byte :=
  list_byte_of_string "PK:DataModel=2048;Report/Layout=512".

(** Bytes that are no archive. *)
Definition garbage : list Byte.byte := list_byte_of_string "not a zip".

(** Stands for the bytes of an archive whose entry needs a version of the
    format that [zipfile] does not implement. *)
Definition future_zip : list Byte.byte :=
  list_byte_of_string "PK:version needed to extract=9.9".

Definition two_entries : list ZipInfo :=
  [MkZipInfo "DataModel" 2048; MkZipInfo "Report/Layout" 512].

(** A reader that knows the sample files and rejects everything else the
    way [zipfile] rejects a file without an end-of-central-directory
    record. *)
Definition reader (content : list Byte.byte) : exn + list ZipInfo :=
  if String.eqb (string_of_list_byte content) (string_of_list_byte empty_zip)
  then inr []
  else if String.eqb (string_of_list_byte content)
                     (string_of_list_byte two_entries_zip)
  then inr two_entries
  else if String.eqb (string_of_list_byte content)
                     (string_of_list_byte future_zip)
  then inl (Raised (OtherError "NotImplementedError") "zip file version 9.9")
  else inl (Raised BadZipFile "File is not a zip file").

(** A path with a component of more than 255 characters names nothing:
    the lookup is refused. *)
Definition name_too_long (path : string) : bool :=
  existsb (λ part, (255 <? String.length part)%nat) (PyStr.split "/" path).

(** A name of 300 characters and the extension. *)
Definition long_name : string := PyStr.replicate 300 "a" +:+ ".pbix".

(** A small disk. *)
Definition disk : filesystem :=
  λ path,
    if String.eqb path "model.pbix" then Found (RegularFile two_entries_zip)
    else if String.eqb path "empty.PBIX" then Found (RegularFile empty_zip)
    else if String.eqb path "broken.pbix" then Found (RegularFile garbage)
    else if String.eqb path "future.pbix" then Found (RegularFile future_zip)
    else if String.eqb path "report.txt" then Found (RegularFile garbage)
    else if String.eqb path ".pbix" then Found (RegularFile two_entries_zip)
    else if String.eqb path "dir/.pbix" then Found (RegularFile garbage)
    else if String.eqb path "dir" then Found Directory
    else if String.eqb path "folder.pbix" then Found Directory
    else if name_too_long path then Fails ENAMETOOLONG
    else Fails ENOENT.

(** The world before any inspector has been built. *)
Definition start : world := MkWorld (MkInstance None) disk EmptyString.

End Sample.

(** ** Names for the worlds and texts the methods produce *)

(** The world in which [self.pbix_path] has been assigned. *)
Definition assigned (p : Pathlib.Path) (w : world) : world :=
  MkWorld (MkInstance (Some p)) (fs w) (stdout w).

(** The world after more text has been printed. *)
Definition printed (text : string) (w : world) : world :=
  MkWorld (self w) (fs w) (stdout w +:+ text).

(** The text of the row printed for one archive entry. *)
Definition row_text (file_info : ZipInfo) : string :=
  (PyStr.ljust 60 (filename file_info) +:+ " "
   +:+ PyStr.rjust 15 (PyInt.format_comma (file_size file_info) +:+ " bytes"))
  +:+ nl.

(** The whole text written by [print_contents] for a given [filelist]. *)
Definition report_text (name : string) (filelist : list ZipInfo) : string :=
  nl +:+ (("Contents of " +:+ name +:+ ":") +:+ nl)
  +:+ (PyStr.replicate 80 "-" +:+ nl)
  +:+ String.concat EmptyString (map row_text filelist)
  +:+ nl
  +:+ (("Total files: " +:+ PyInt.str (N.of_nat (length filelist))) +:+ nl).

(** The three digits that the division loop of [str] writes last for a
    number of at least one thousand. *)
Definition last_three (m : N) : string :=
  String (PyInt.digit_char (m / 100))
    (String (PyInt.digit_char (m / 10 mod 10))
       (String (PyInt.digit_char (m mod 10)) EmptyString)).

(** The shape of a five-character ending that lowers to [.pbix]. *)
Definition pbix_ending (t : string) : Prop :=
  ∃ c1 c2 c3 c4,
    t = String "." (String c1 (String c2 (String c3 (String c4 EmptyString))))
    ∧ Forall (λ c, c ≠ "."%char ∧ c ≠ "/"%char) [c1; c2; c3; c4].

(** The three exceptions the module raises itself. *)
Definition not_found_error (raw : string) : exn :=
  Raised FileNotFoundError ("PBIX file not found: " +:+ raw).

Definition invalid_extension_error (p : Pathlib.Path) : exn :=
  Raised ValueError ("File must have .pbix extension, got: " +:+ Pathlib.suffix p).

Definition corrupt_archive_error (p : Pathlib.Path) : exn :=
  Raised ValueError
    ("Failed to open " +:+ Pathlib.to_str p +:+ " as a ZIP file. "
     +:+ "File may be corrupted.").

(** A failure of one of the two fallible operations, under one of the three
    conditions of the taxonomy, with the exception the caller sees. *)
Inductive fails_with (rcd : list Byte.byte → exn + list ZipInfo)
  : Spec.operation → Spec.condition → exn → Prop :=
  | fails_not_found raw w e w' :
      Spec.absent_in (fs w) (Pathlib.parse raw) →
      __init__ raw w = (inl e, w') →
      fails_with rcd Spec.Construct Spec.NotFound e
  | fails_invalid_extension raw w e w' :
      Spec.exists_in (fs w) (Pathlib.parse raw) →
      ¬ Spec.has_pbix_extension (Pathlib.parse raw) →
      __init__ raw w = (inl e, w') →
      fails_with rcd Spec.Construct Spec.InvalidExtension e
  | fails_corrupt_archive w p content bad e w' :
      pbix_path (self w) = Some p →
      fs w (Pathlib.to_str p) = Found (RegularFile content) →
      rcd content = inl bad →
      exn_cls bad = BadZipFile →
      list_contents rcd w = (inl e, w') →
      fails_with rcd Spec.ListEntries Spec.CorruptArchive e
  | fails_corrupt_archive_render w p content bad e w' :
      pbix_path (self w) = Some p →
      fs w (Pathlib.to_str p) = Found (RegularFile content) →
      rcd content = inl bad →
      exn_cls bad = BadZipFile →
      print_contents rcd w = (inl e, w') →
      fails_with rcd Spec.RenderContents Spec.CorruptArchive e.

Ltac run_M :=
  unfold mbind, M_bind, bind, mret, M_ret, ret, raise, try_except,
         set_pbix_path, get_pbix_path, path_exists, exists_answer, print; simpl.

Ltac lia_div := zify; Z.to_euclidean_division_equations; lia.

(** ** [tests/test_analyzer.py] *)

Module PyTest.

(** [sub in s] for two strings. *)
Fixpoint contains (s sub : string) : bool :=
  String.prefix sub s
  || match s with
     | EmptyString => false
     | String _ s' => contains s' sub
     end.

(** The name a class is printed with. *)
Definition class_name (c : exn_class) : string :=
  match c with
  | FileNotFoundError => "FileNotFoundError"
  | IsADirectoryError => "IsADirectoryError"
  | ValueError => "ValueError"
  | KeyError => "KeyError"
  | AttributeError => "AttributeError"
  | BadZipFile => "zipfile.BadZipFile"
  | OtherError cls => cls
  end.

(** [with pytest.raises(cls) as exc_info: body]: an exception of class
    [cls] is caught and handed over; another one passes through; a body
    that returns fails the test.  Classes are matched exactly: of the
    classes [PBIXAnalyzer.__init__] raises, none derives from the
    other. *)
Definition raises {A} (cls : exn_class) (body : M A) : M exn :=
  λ w, match body w with
       | (inl e, w') =>
           if decide (exn_cls e = cls) then (inr e, w') else (inl e, w')
       | (inr _, w') =>
           (inl (Raised (OtherError "Failed")
                   ("DID NOT RAISE <class '" +:+ class_name cls +:+ "'>")), w')
       end.

(** [assert b] *)
Definition assert_ (b : bool) : M unit :=
  if b then mret tt else raise (OtherError "AssertionError") EmptyString.

(** [str(exc_info.value)] for an exception built from one message. *)
Definition str_of_exn (e : exn) : string := exn_msg e.

Definition test_analyzer_initialization_with_invalid_extension : M unit :=
  exc_info ← raises ValueError (__init__ "test.txt") ;
  assert_ (contains (str_of_exn exc_info) "must have .pbix extension").

Definition test_analyzer_initialization_with_nonexistent_file : M unit :=
  exc_info ← raises FileNotFoundError (__init__ "nonexistent.pbix") ;
  assert_ (contains (str_of_exn exc_info) "PBIX file not found").

End PyTest.

(** The number of occurrences of a character in a text. *)
Fixpoint count_char (ch : ascii) (s : string) : nat :=
  match s with
  | EmptyString => 0
  | String c s' => (if Ascii.eqb c ch then 1 else 0) + count_char ch s'
  end.

Example parse_plain : Pathlib.parse "a/b/Model.PBIX" = Pathlib.MkPath "" ["a"; "b"; "Model.PBIX"].
Proof. reflexivity. Qed.

Example parse_slashes : Pathlib.to_str (Pathlib.parse "///a//./b.pbix/") = "/a/b.pbix".
Proof. reflexivity. Qed.

Example suffix_plain : Pathlib.suffix (Pathlib.parse "a/b/Model.PBIX") = ".PBIX".
Proof. reflexivity. Qed.

Example suffix_dotfile : Pathlib.suffix (Pathlib.parse "a/.pbix") = "".
Proof. reflexivity. Qed.

Example suffix_two : Pathlib.suffix (Pathlib.parse "x.tar.gz") = ".gz".
Proof. reflexivity. Qed.

Example suffix_trailing_dot : Pathlib.suffix (Pathlib.parse "x.pbix.") = "".
Proof. reflexivity. Qed.

Example lower_mixed : PyStr.lower ".PbIx" = ".pbix".
Proof. reflexivity. Qed.

Example str_0 : PyInt.str 0 = "0". Proof. reflexivity. Qed.
Example str_512 : PyInt.str 512 = "512". Proof. reflexivity. Qed.
Example str_big : PyInt.str 4294967295 = "4294967295". Proof. reflexivity. Qed.
Example comma_999 : PyInt.format_comma 999 = "999". Proof. reflexivity. Qed.
Example comma_1000 : PyInt.format_comma 1000 = "1,000". Proof. reflexivity. Qed.
Example comma_2048 : PyInt.format_comma 2048 = "2,048". Proof. reflexivity. Qed.
Example comma_big : PyInt.format_comma 4294967295 = "4,294,967,295". Proof. reflexivity. Qed.


Example thousands_2048 : Spec.thousands 2048 = "2,048".
Proof. reflexivity. Qed.

Example thousands_1000000 : Spec.thousands 1000000 = "1,000,000".
Proof. reflexivity. Qed.

Example rule_length : String.length Spec.rule = 80.
Proof. reflexivity. Qed.

(** No file can have a name of 300 characters: the lookup is refused, and
    [Path.exists] passes the refusal on. *)
Example scenario_long_name :
  fst (__init__ Sample.long_name Sample.start)
  = inl (Raised (OtherError "OSError")
           ("[Errno 36] File name too long: '" +:+ Sample.long_name +:+ "'")).
Proof. reflexivity. Qed.

Example entry_dict_2048 :
  entry_dict (MkZipInfo "DataModel" 2048) !! "size" = Some "2,048 bytes".
Proof. reflexivity. Qed.

Example entry_dict_1024 :
  entry_dict (MkZipInfo "x" 1024) !! "size" = Some "1,024 bytes".
Proof. reflexivity. Qed.

(** The scenarios of the specification, run on the sample disk. *)

Example scenario_missing :
  fst (__init__ "missing.pbix" Sample.start)
  = inl (Raised FileNotFoundError "PBIX file not found: missing.pbix").
Proof. reflexivity. Qed.

Example scenario_report_txt :
  fst (__init__ "report.txt" Sample.start)
  = inl (Raised ValueError "File must have .pbix extension, got: .txt").
Proof. reflexivity. Qed.

(** [tests/test_analyzer.py] builds an inspector for ["test.txt"] and
    expects the extension error; where no such file exists the existence
    check comes first. *)
Example scenario_test_txt_absent :
  fst (__init__ "test.txt" Sample.start)
  = inl (Raised FileNotFoundError "PBIX file not found: test.txt").
Proof. reflexivity. Qed.

Example scenario_model_listing :
  fst ((__init__ "model.pbix" ;; list_contents Sample.reader) Sample.start)
  = inr [ {[ "name" := "DataModel"; "size" := "2,048 bytes" ]};
          {[ "name" := "Report/Layout"; "size" := "512 bytes" ]} ].
Proof. reflexivity. Qed.

Example scenario_model_report :
  stdout (snd ((__init__ "model.pbix" ;; print_contents Sample.reader) Sample.start))
  = Spec.line ""
    +:+ Spec.line "Contents of model.pbix:"
    +:+ Spec.line
          "--------------------------------------------------------------------------------"
    +:+ Spec.line
          "DataModel                                                        2,048 bytes"
    +:+ Spec.line
          "Report/Layout                                                      512 bytes"
    +:+ Spec.line ""
    +:+ Spec.line "Total files: 2".
Proof. reflexivity. Qed.

Example scenario_upper_case_extension :
  fst ((__init__ "empty.PBIX" ;; list_contents Sample.reader) Sample.start) = inr [].
Proof. reflexivity. Qed.

Example scenario_broken :
  fst ((__init__ "broken.pbix" ;; list_contents Sample.reader) Sample.start)
  = inl (Raised ValueError
           "Failed to open broken.pbix as a ZIP file. File may be corrupted.").
Proof. reflexivity. Qed.

(** A directory passes both checks of [__init__]; the error that [open]
    raises for it is not a [BadZipFile] and passes through
    [list_contents]. *)
Example scenario_directory :
  fst ((__init__ "folder.pbix" ;; list_contents Sample.reader) Sample.start)
  = inl (Raised IsADirectoryError "[Errno 21] Is a directory: 'folder.pbix'").
Proof. reflexivity. Qed.

(** A name longer than its column is printed whole and pushes the size to
    the right. *)
Example long_name_row :
  String.length (row_text (MkZipInfo (PyStr.replicate 70 "a") 7)) = 70 + 1 + 15 + 1.
Proof. reflexivity. Qed.

Example sample_reader_two : Sample.reader Sample.two_entries_zip = inr Sample.two_entries.
Proof. reflexivity. Qed.

Example sample_reader_garbage :
  Sample.reader Sample.garbage = inl (Raised BadZipFile "File is not a zip file").
Proof. reflexivity. Qed.

(** ** Facts about strings *)

Section StringFacts.

Lemma string_app_cons (x : ascii) (a b : string) :
  String x a +:+ b = String x (a +:+ b).
Proof. reflexivity. Qed.

Lemma string_app_nil_l (a : string) : EmptyString +:+ a = a.
Proof. reflexivity. Qed.

Lemma string_app_assoc (a b c : string) : (a +:+ b) +:+ c = a +:+ (b +:+ c).
Proof.
  induction a as [|x a IH]; [reflexivity | ].
  rewrite !string_app_cons, IH. reflexivity.
Qed.

Lemma string_app_nil_r (a : string) : a +:+ EmptyString = a.
Proof.
  induction a as [|x a IH]; [reflexivity | ].
  rewrite string_app_cons, IH. reflexivity.
Qed.

Lemma string_length_app (a b : string) :
  String.length (a +:+ b) = String.length a + String.length b.
Proof.
  induction a as [|x a IH]; [reflexivity | ].
  rewrite string_app_cons. simpl. now rewrite IH.
Qed.

Lemma length_replicate (n : nat) (c : ascii) :
  String.length (PyStr.replicate n c) = n.
Proof. induction n as [|n IH]; simpl; [reflexivity | now rewrite IH]. Qed.

Lemma length_ljust (w : nat) (s : string) :
  String.length (PyStr.ljust w s) = Nat.max w (String.length s).
Proof. unfold PyStr.ljust. rewrite string_length_app, length_replicate. lia. Qed.

Lemma length_rjust (w : nat) (s : string) :
  String.length (PyStr.rjust w s) = Nat.max w (String.length s).
Proof. unfold PyStr.rjust. rewrite string_length_app, length_replicate. lia. Qed.


Lemma replicate_80_dashes : PyStr.replicate 80 "-" = Spec.rule.
Proof. reflexivity. Qed.

(** What [print] puts after the text is a line feed. *)
Lemma app_nl_line (s : string) : s +:+ nl = Spec.line s.
Proof. reflexivity. Qed.



End StringFacts.

(** ** Paths that end in [.pbix] *)

Section PathFacts.

Lemma length_lower (s : string) : String.length (PyStr.lower s) = String.length s.
Proof. induction s as [|c s IH]; simpl; [reflexivity | now rewrite IH]. Qed.

Lemma lower_slice_from (k : nat) (s : string) :
  PyStr.lower (PyStr.slice_from k s) = PyStr.slice_from k (PyStr.lower s).
Proof.
  revert s. induction k as [|k IH]; intros s; [reflexivity | ].
  destruct s as [|c s]; [reflexivity | apply IH].
Qed.

(** A string is what comes before position [k] followed by [s[k:]]. *)
Lemma slice_from_split (k : nat) (s : string) :
  ∃ pre, s = pre +:+ PyStr.slice_from k s.
Proof.
  revert s. induction k as [|k IH]; intros s.
  - exists EmptyString. reflexivity.
  - destruct s as [|c s].
    + exists EmptyString. reflexivity.
    + destruct (IH s) as [pre Hpre]. exists (String c pre).
      rewrite string_app_cons. simpl. now rewrite <- Hpre.
Qed.

Lemma slice_from_app_length (a b : string) :
  PyStr.slice_from (String.length a) (a +:+ b) = b.
Proof. induction a as [|c a IH]; [reflexivity | exact IH]. Qed.

Lemma slice_from_app_le (k : nat) (a b : string) :
  (k ≤ String.length a)%nat →
  PyStr.slice_from k (a +:+ b) = PyStr.slice_from k a +:+ b.
Proof.
  revert a. induction k as [|k IH]; intros a Hk; [reflexivity | ].
  destruct a as [|c a]; simpl in Hk; [lia | ].
  rewrite string_app_cons. simpl. apply IH. lia.
Qed.

Lemma count_leading_le (c : ascii) (s : string) :
  (PyStr.count_leading c s ≤ String.length s)%nat.
Proof.
  induction s as [|a s IH]; simpl; [lia | ].
  destruct (Ascii.eqb a c); lia.
Qed.

(** The characters that lower to a character of [.pbix]. *)
Lemma lower_char_dot (c : ascii) : PyStr.lower_char c = "."%char → c = "."%char.
Proof.
  destruct c as [[] [] [] [] [] [] [] []]; vm_compute; intros H;
    first [reflexivity | discriminate H].
Qed.

Lemma lower_char_letter (c : ascii) :
  PyStr.lower_char c = "p"%char ∨ PyStr.lower_char c = "b"%char
  ∨ PyStr.lower_char c = "i"%char ∨ PyStr.lower_char c = "x"%char →
  c ≠ "."%char ∧ c ≠ "/"%char.
Proof.
  intros H. split; intros ->; vm_compute in H;
    destruct H as [H | [H | [H | H]]]; discriminate H.
Qed.

Lemma lower_pbix_ending (t : string) : PyStr.lower t = ".pbix" → pbix_ending t.
Proof.
  destruct t as [|c0 [|c1 [|c2 [|c3 [|c4 [|c5 t]]]]]]; simpl; intros H;
    try discriminate H.
  injection H as H0 H1 H2 H3 H4.
  apply lower_char_dot in H0. subst c0.
  exists c1, c2, c3, c4. split; [reflexivity | ].
  repeat constructor; apply lower_char_letter; auto.
Qed.

Lemma ends_in_pbix_split (raw : string) :
  Spec.ends_in_pbix raw = true →
  ∃ pre t, raw = pre +:+ t ∧ PyStr.lower t = ".pbix".
Proof.
  unfold Spec.ends_in_pbix, Spec.endswith. intros H.
  apply andb_true_iff in H as [H _]. apply String.eqb_eq in H.
  rewrite length_lower in H. rewrite <- lower_slice_from in H.
  destruct (slice_from_split (String.length raw - String.length ".pbix") raw)
    as [pre Hpre].
  eauto.
Qed.

Lemma pbix_ending_split (t : string) : pbix_ending t → PyStr.split "/" t = [t].
Proof.
  intros (c1 & c2 & c3 & c4 & -> & Hc).
  repeat match goal with
         | H : Forall _ (_ :: _) |- _ => apply Forall_cons in H as [[_ ?] H]
         end.
  simpl.
  repeat match goal with
         | H : ?c ≠ "/"%char |- _ =>
             apply Ascii.eqb_neq in H; rewrite H; clear H
         end.
  reflexivity.
Qed.

Lemma pbix_ending_rfind (t : string) : pbix_ending t → PyStr.rfind "." t = 0%Z.
Proof.
  intros (c1 & c2 & c3 & c4 & -> & Hc).
  repeat match goal with
         | H : Forall _ (_ :: _) |- _ => apply Forall_cons in H as [[? _] H]
         end.
  simpl.
  repeat match goal with
         | H : ?c ≠ "."%char |- _ =>
             apply Ascii.eqb_neq in H; rewrite H; clear H
         end.
  reflexivity.
Qed.

Lemma pbix_ending_length (t : string) : pbix_ending t → String.length t = 5.
Proof. intros (c1 & c2 & c3 & c4 & -> & _). reflexivity. Qed.

Lemma pbix_ending_count_leading (t : string) :
  pbix_ending t → PyStr.count_leading "/" t = 0.
Proof. intros (c1 & c2 & c3 & c4 & -> & _). reflexivity. Qed.

(** Text without a separator, put at the end, extends the last piece. *)
Lemma split_app_last (sep : ascii) (pre t : string) :
  PyStr.split sep t = [t] →
  ∃ init c, PyStr.split sep (pre +:+ t) = init ++ [c +:+ t].
Proof.
  intros Ht. induction pre as [|a pre (init & c & IH)].
  - exists [], EmptyString. exact Ht.
  - rewrite string_app_cons. simpl. rewrite IH.
    destruct (Ascii.eqb a sep).
    + exists (EmptyString :: init), c. reflexivity.
    + destruct init as [|h init']; simpl.
      * exists [], (String a c). reflexivity.
      * exists (String a h :: init'), c. reflexivity.
Qed.

Lemma rfind_app_last (ch : ascii) (c t : string) :
  PyStr.rfind ch t = 0%Z →
  PyStr.rfind ch (c +:+ t) = Z.of_nat (String.length c).
Proof.
  intros Ht. induction c as [|a c IH]; [exact Ht | ].
  rewrite string_app_cons. simpl PyStr.rfind. rewrite IH.
  destruct (Z.leb_spec 0 (Z.of_nat (String.length c))) as [_|Hneg]; [ | lia ].
  simpl String.length. lia.
Qed.

Lemma count_leading_app (ch : ascii) (pre t : string) :
  PyStr.count_leading ch t = 0 →
  PyStr.count_leading ch (pre +:+ t) = PyStr.count_leading ch pre.
Proof.
  intros Ht. induction pre as [|a pre IH]; [exact Ht | ].
  rewrite string_app_cons. simpl. rewrite IH. reflexivity.
Qed.

Lemma keep_part_long (s : string) :
  (2 ≤ String.length s)%nat → Pathlib.keep_part s = true.
Proof.
  destruct s as [|a [|b s]]; simpl; try lia. intros _.
  unfold Pathlib.keep_part. simpl. destruct (Ascii.eqb a "."); reflexivity.
Qed.

(** The parts of a parsed path are the pieces between slashes, after the
    leading slashes, that the parser keeps. *)
Lemma parse_parts (raw : string) :
  Pathlib.parts (Pathlib.parse raw)
  = List.filter Pathlib.keep_part (PyStr.split "/" (PyStr.lstrip "/" raw)).
Proof.
  unfold Pathlib.parse, Pathlib.splitroot, PyStr.lstrip.
  destruct (PyStr.count_leading "/" raw) as [|[|[|k]]]; reflexivity.
Qed.

(** The name of a path that ends in [t] is a stem followed by [t]. *)
Lemma name_of_pbix_ending (pre t : string) :
  pbix_ending t → ∃ stem, Pathlib.name (Pathlib.parse (pre +:+ t)) = stem +:+ t.
Proof.
  intros Ht. unfold Pathlib.name. rewrite parse_parts. unfold PyStr.lstrip.
  rewrite count_leading_app by (apply pbix_ending_count_leading; exact Ht).
  rewrite slice_from_app_le by apply count_leading_le.
  destruct (split_app_last "/" (PyStr.slice_from (PyStr.count_leading "/" pre) pre) t
              (pbix_ending_split t Ht)) as (init & stem & ->).
  exists stem. rewrite List.filter_app. simpl.
  rewrite keep_part_long.
  - apply List.last_last.
  - rewrite string_length_app, (pbix_ending_length t Ht). lia.
Qed.

(** The suffix of a name made of a non-empty stem and an ending [t]. *)
Lemma suffix_of_pbix_ending (p : Pathlib.Path) (stem t : string) :
  pbix_ending t → Pathlib.name p = stem +:+ t →
  Pathlib.suffix p = if String.eqb stem EmptyString then EmptyString else t.
Proof.
  intros Ht Hname. unfold Pathlib.suffix. rewrite Hname.
  rewrite rfind_app_last by (apply pbix_ending_rfind; exact Ht).
  rewrite string_length_app, (pbix_ending_length t Ht), Nat2Z.id.
  rewrite slice_from_app_length.
  destruct stem as [|a stem]; [reflexivity | ].
  simpl String.eqb. simpl String.length.
  destruct (Z.ltb_spec 0 (Z.of_nat (S (String.length stem)))) as [_|H]; [ | lia ].
  destruct (Z.ltb_spec (Z.of_nat (S (String.length stem)))
              (Z.of_nat (S (String.length stem) + 5) - 1)) as [_|H]; [ | lia ].
  reflexivity.
Qed.

(** A path that ends in [.pbix] up to case either is named [.pbix] up to
    case and has no extension, or has the extension [.pbix] up to case. *)
Lemma ends_in_pbix_cases (raw : string) :
  Spec.ends_in_pbix raw = true →
  (PyStr.lower (Pathlib.name (Pathlib.parse raw)) = ".pbix"
   ∧ Pathlib.suffix (Pathlib.parse raw) = EmptyString)
  ∨ (PyStr.lower (Pathlib.name (Pathlib.parse raw)) ≠ ".pbix"
     ∧ Spec.has_pbix_extension (Pathlib.parse raw)).
Proof.
  intros Hend. destruct (ends_in_pbix_split raw Hend) as (pre & t & -> & Hlow).
  pose proof (lower_pbix_ending t Hlow) as Ht.
  destruct (name_of_pbix_ending pre t Ht) as [stem Hname].
  pose proof (suffix_of_pbix_ending _ stem t Ht Hname) as Hsuf.
  unfold Spec.has_pbix_extension. rewrite Hname, Hsuf.
  destruct stem as [|a stem]; simpl String.eqb.
  - left. split; [exact Hlow | reflexivity].
  - right. split; [ | exact Hlow ].
    intros Heq. apply (f_equal String.length) in Heq.
    rewrite length_lower, string_length_app, (pbix_ending_length t Ht) in Heq.
    simpl in Heq. lia.
Qed.

End PathFacts.

(** ** How the methods run *)

Section Runs.

Variable rcd : list Byte.byte → exn + list ZipInfo.

Lemma exists_in_found (f : filesystem) (p : Pathlib.Path) :
  Spec.exists_in f p → exists_answer f p = inr true.
Proof. intros [n Hn]. unfold exists_answer. now rewrite Hn. Qed.

(** [_ignore_error] accepts the errors that the specification lists. *)
Lemma ignored_iff (e : errno) :
  ignored_by_exists e = true ↔ In e Spec.taken_for_absence.
Proof.
  destruct e; simpl; split; intros H; try reflexivity; try discriminate;
    intuition discriminate.
Qed.

Lemma absent_in_answer (f : filesystem) (p : Pathlib.Path) :
  Spec.absent_in f p → exists_answer f p = inr false.
Proof.
  intros (e & He & Hign). unfold exists_answer. rewrite He.
  rewrite (proj2 (ignored_iff e) Hign). reflexivity.
Qed.

(** The three answers of a lookup, as the existence test sees them. *)
Lemma lookup_cases (f : filesystem) (p : Pathlib.Path) :
  Spec.exists_in f p
  ∨ Spec.absent_in f p
  ∨ ∃ e, f (Pathlib.to_str p) = Fails e ∧ ¬ In e Spec.taken_for_absence.
Proof.
  unfold Spec.exists_in, Spec.absent_in.
  destruct (f (Pathlib.to_str p)) as [n|e]; [eauto | ].
  destruct (ignored_by_exists e) eqn:Hign.
  - right. left. exists e. split; [reflexivity | now apply ignored_iff].
  - right. right. exists e. split; [reflexivity | ].
    intros Hin. apply ignored_iff in Hin. congruence.
Qed.

Lemma exists_not_absent (f : filesystem) (p : Pathlib.Path) :
  Spec.exists_in f p → Spec.absent_in f p → False.
Proof. intros [n Hn] (e & He & _). congruence. Qed.

Lemma init_not_found (raw : string) (w : world) :
  Spec.absent_in (fs w) (Pathlib.parse raw) →
  __init__ raw w =
    (inl (Raised FileNotFoundError ("PBIX file not found: " +:+ raw)),
     assigned (Pathlib.parse raw) w).
Proof.
  intros Habsent. unfold __init__.
  unfold mbind, M_bind, bind, set_pbix_path, get_pbix_path, path_exists. simpl.
  rewrite (absent_in_answer _ _ Habsent). reflexivity.
Qed.

(** A lookup that fails with an error [exists] does not accept ends
    [__init__] with that error. *)
Lemma init_lookup_error (raw : string) (w : world) (e : errno) :
  fs w (Pathlib.to_str (Pathlib.parse raw)) = Fails e →
  ¬ In e Spec.taken_for_absence →
  __init__ raw w =
    (inl (os_exception e (Pathlib.to_str (Pathlib.parse raw))),
     assigned (Pathlib.parse raw) w).
Proof.
  intros Hfs Hign. unfold __init__.
  unfold mbind, M_bind, bind, set_pbix_path, get_pbix_path, path_exists. simpl.
  unfold exists_answer. rewrite Hfs.
  destruct (ignored_by_exists e) eqn:Hb; [ | reflexivity ].
  apply ignored_iff in Hb. contradiction.
Qed.

Lemma init_bad_suffix (raw : string) (w : world) :
  Spec.exists_in (fs w) (Pathlib.parse raw) →
  PyStr.lower (Pathlib.suffix (Pathlib.parse raw)) ≠ ".pbix" →
  __init__ raw w =
    (inl (Raised ValueError
            ("File must have .pbix extension, got: "
             +:+ Pathlib.suffix (Pathlib.parse raw))),
     assigned (Pathlib.parse raw) w).
Proof.
  intros Hsome Hsuf. unfold __init__.
  unfold mbind, M_bind, bind, set_pbix_path, get_pbix_path, path_exists. simpl.
  rewrite (exists_in_found _ _ Hsome). simpl.
  apply String.eqb_neq in Hsuf. rewrite Hsuf. reflexivity.
Qed.

Lemma init_ok (raw : string) (w : world) :
  Spec.exists_in (fs w) (Pathlib.parse raw) →
  PyStr.lower (Pathlib.suffix (Pathlib.parse raw)) = ".pbix" →
  __init__ raw w = (inr tt, assigned (Pathlib.parse raw) w).
Proof.
  intros Hsome Hsuf. unfold __init__.
  unfold mbind, M_bind, bind, set_pbix_path, get_pbix_path, path_exists. simpl.
  rewrite (exists_in_found _ _ Hsome). simpl.
  rewrite Hsuf. reflexivity.
Qed.

(** A successful [__init__] is one that found the path and accepted its
    suffix. *)
Lemma init_success_inv (raw : string) (w w' : world) :
  __init__ raw w = (inr tt, w') →
  w' = assigned (Pathlib.parse raw) w
  ∧ Spec.exists_in (fs w) (Pathlib.parse raw)
  ∧ PyStr.lower (Pathlib.suffix (Pathlib.parse raw)) = ".pbix".
Proof.
  intros Hrun.
  destruct (lookup_cases (fs w) (Pathlib.parse raw))
    as [Hex | [Habs | (e & He & Hign)]].
  - destruct (string_dec (PyStr.lower (Pathlib.suffix (Pathlib.parse raw))) ".pbix")
      as [Heq|Hne].
    + rewrite init_ok in Hrun by assumption. inversion Hrun. eauto.
    + rewrite init_bad_suffix in Hrun by assumption. discriminate.
  - rewrite init_not_found in Hrun by assumption. discriminate.
  - rewrite (init_lookup_error raw w e He Hign) in Hrun. discriminate.
Qed.

Lemma collect_map (filelist : list ZipInfo) (acc : list (gmap string string)) :
  collect filelist acc = acc ++ map entry_dict filelist.
Proof.
  unfold collect. revert acc.
  induction filelist as [|fi rest IH]; intros acc; simpl.
  - now rewrite app_nil_r.
  - rewrite IH, <- List.app_assoc. reflexivity.
Qed.

(** What [list_contents] does, by what the bound path names. *)
Lemma list_contents_run (w : world) (p : Pathlib.Path) :
  pbix_path (self w) = Some p →
  list_contents rcd w =
    match fs w (Pathlib.to_str p) with
    | Fails e => (inl (os_exception e (Pathlib.to_str p)), w)
    | Found Directory =>
        (inl (Raised IsADirectoryError
                ("[Errno 21] Is a directory: '"
                 +:+ Pathlib.to_str p +:+ "'")), w)
    | Found (RegularFile content) =>
        match rcd content with
        | inl e =>
            if decide (exn_cls e = BadZipFile)
            then (inl (Raised ValueError
                         ("Failed to open " +:+ Pathlib.to_str p
                          +:+ " as a ZIP file. " +:+ "File may be corrupted.")), w)
            else (inl e, w)
        | inr filelist => (inr (map entry_dict filelist), w)
        end
    end.
Proof.
  intros Hp. unfold list_contents, ZipFile_open. run_M. rewrite Hp.
  destruct (fs w (Pathlib.to_str p)) as [[content|]|e]; simpl; try reflexivity.
  2:{ destruct e; reflexivity. }
  destruct (rcd content) as [e|filelist]; simpl.
  - destruct (decide (exn_cls e = BadZipFile)); [ rewrite Hp | ]; reflexivity.
  - rewrite collect_map. reflexivity.
Qed.

End Runs.

(** ** Decimal text *)

Section Decimal.

Local Open Scope N_scope.

Lemma str_loop_S (f : nat) (n : N) (acc : string) :
  PyInt.str_loop (S f) n acc =
    if n / 10 =? 0 then String (PyInt.digit_char (n mod 10)) acc
    else PyInt.str_loop f (n / 10) (String (PyInt.digit_char (n mod 10)) acc).
Proof. reflexivity. Qed.

Lemma str_loop_acc (f : nat) (n : N) (acc : string) :
  PyInt.str_loop f n acc = (PyInt.str_loop f n EmptyString +:+ acc)%string.
Proof.
  revert n acc. induction f as [|f IH]; intros n acc; [reflexivity | ].
  rewrite !str_loop_S. destruct (n / 10 =? 0); [reflexivity | ].
  rewrite IH. rewrite (IH _ (String _ EmptyString)).
  rewrite string_app_assoc. reflexivity.
Qed.

Lemma str_loop_fuel (f f' : nat) (n : N) (acc : string) :
  n < 2 ^ N.of_nat f → n < 2 ^ N.of_nat f' →
  PyInt.str_loop (S f) n acc = PyInt.str_loop (S f') n acc.
Proof.
  revert f' n acc. induction f as [|f IH]; intros f' n acc Hf Hf'.
  - assert (n = 0) as -> by (simpl in Hf; lia).
    rewrite !str_loop_S. reflexivity.
  - rewrite (str_loop_S (S f)), (str_loop_S f').
    destruct (n / 10 =? 0) eqn:Hq; [reflexivity | ].
    apply N.eqb_neq in Hq.
    assert (10 <= n) as Hn.
    { destruct (N.lt_ge_cases n 10) as [Hlt|Hge]; [ | assumption ].
      apply N.div_small in Hlt. contradiction. }
    destruct f' as [|f'].
    { simpl in Hf'. lia. }
    rewrite Nat2N.inj_succ, N.pow_succ_r' in Hf, Hf'.
    apply IH; apply N.Div0.div_lt_upper_bound; lia.
Qed.

Lemma str_small (n : N) :
  n < 10 → PyInt.str n = String (PyInt.digit_char n) EmptyString.
Proof.
  intros Hn. unfold PyInt.str. rewrite str_loop_S.
  rewrite N.div_small, N.mod_small by assumption. reflexivity.
Qed.

Lemma str_step (n : N) :
  10 <= n →
  PyInt.str n
  = (PyInt.str (n / 10) +:+ String (PyInt.digit_char (n mod 10)) EmptyString)%string.
Proof.
  intros Hn. unfold PyInt.str at 1. rewrite str_loop_S.
  assert (n / 10 ≠ 0) as Hq.
  { intros H0. apply N.div_small_iff in H0; lia. }
  apply N.eqb_neq in Hq. rewrite Hq.
  pose proof (N.size_gt n) as Hsz.
  destruct (N.to_nat (N.size n)) as [|g] eqn:Hg.
  { assert (N.size n = 0) as H0 by lia. rewrite H0 in Hsz. simpl in Hsz. lia. }
  assert (N.size n = N.succ (N.of_nat g)) as Hsize by lia.
  rewrite Hsize, N.pow_succ_r' in Hsz.
  rewrite str_loop_acc. unfold PyInt.str.
  rewrite (str_loop_fuel g (N.to_nat (N.size (n / 10)))); [reflexivity | | ].
  - apply N.Div0.div_lt_upper_bound. lia.
  - rewrite N2Nat.id. apply N.size_gt.
Qed.

(** The last three decimal digits of [n] are the digits of
    [n mod 1000]. *)
Lemma last_three_digits (n : N) :
  n / 10 / 10 / 10 = n / 1000
  ∧ n / 10 / 10 mod 10 = n mod 1000 / 100
  ∧ n / 10 mod 10 = n mod 1000 / 10 mod 10
  ∧ n mod 10 = n mod 1000 mod 10.
Proof. repeat split; lia_div. Qed.

Lemma str_thousand (n : N) :
  1000 <= n →
  PyInt.str n = (PyInt.str (n / 1000) +:+ last_three (n mod 1000))%string.
Proof.
  intros Hn.
  assert (10 <= n / 10) as H1 by lia_div.
  assert (10 <= n / 10 / 10) as H2 by lia_div.
  rewrite (str_step n) by lia.
  rewrite (str_step (n / 10)) by assumption.
  rewrite (str_step (n / 10 / 10)) by assumption.
  destruct (last_three_digits n) as (-> & -> & -> & ->).
  rewrite !string_app_assoc. reflexivity.
Qed.

Lemma str_nonempty (n : N) : PyInt.str n ≠ EmptyString.
Proof.
  destruct (N.lt_ge_cases n 10) as [Hlt|Hge].
  - rewrite str_small by assumption. discriminate.
  - rewrite str_step by assumption.
    destruct (PyInt.str (n / 10)); discriminate.
Qed.

Lemma str_length_below_1000 (n : N) :
  n < 1000 → (String.length (PyInt.str n) <= 3)%nat.
Proof.
  intros Hn.
  destruct (N.lt_ge_cases n 10) as [Hlt|Hge].
  { rewrite str_small by assumption. simpl. lia. }
  rewrite str_step, string_length_app by assumption.
  destruct (N.lt_ge_cases (n / 10) 10) as [Hlt'|Hge'].
  { rewrite str_small by assumption. simpl. lia. }
  rewrite str_step, string_length_app by assumption.
  rewrite str_small by lia_div. simpl. lia.
Qed.

(** *** The grouping pass *)

Lemma group3_cons (c : ascii) (s : string) :
  PyInt.group3 (String c s) =
    if (0 <? String.length s)%nat && (String.length s mod 3 =? 0)%nat
    then String c (String "," (PyInt.group3 s))
    else String c (PyInt.group3 s).
Proof. reflexivity. Qed.

Lemma group3_short (s : string) :
  (String.length s <= 3)%nat → PyInt.group3 s = s.
Proof.
  destruct s as [|a [|b [|c [|d s]]]]; simpl; intros Hlen; try reflexivity; lia.
Qed.

Lemma group3_app (a b : string) :
  a ≠ EmptyString → String.length b = 3%nat →
  PyInt.group3 (a +:+ b) = (PyInt.group3 a +:+ "," +:+ b)%string.
Proof.
  intros Ha Hb. induction a as [|c a IH]; [congruence | clear Ha].
  rewrite string_app_cons, !group3_cons, string_length_app, Hb.
  destruct a as [|c' a].
  - rewrite string_app_nil_l, (group3_short b) by lia. reflexivity.
  - rewrite IH by discriminate.
    replace ((String.length (String c' a) + 3) mod 3)%nat
      with (String.length (String c' a) mod 3)%nat
      by (rewrite <- (Nat.Div0.mod_add _ 1 3); reflexivity).
    replace (0 <? String.length (String c' a) + 3)%nat
      with (0 <? String.length (String c' a))%nat
      by (simpl; reflexivity).
    destruct ((0 <? String.length (String c' a))%nat
              && (String.length (String c' a) mod 3 =? 0)%nat);
      rewrite ?string_app_cons; reflexivity.
Qed.

End Decimal.

(** ** Reading the text back *)

Section ReadingBack.

Local Open Scope N_scope.

Lemma decimal_value_from_app (acc : N) (a b : string) :
  Spec.decimal_value_from acc (a +:+ b)
  = Spec.decimal_value_from (Spec.decimal_value_from acc a) b.
Proof.
  revert acc. induction a as [|c a IH]; intros acc; [reflexivity | ].
  rewrite string_app_cons. simpl. apply IH.
Qed.

Lemma digit_char_value (d : N) :
  d < 10 → N_of_ascii (PyInt.digit_char d) - 48 = d.
Proof.
  intros Hd. unfold PyInt.digit_char.
  rewrite N_ascii_embedding by lia. lia.
Qed.

Lemma digit_char_not_comma (d : N) :
  d < 10 → Ascii.eqb (PyInt.digit_char d) "," = false.
Proof.
  intros Hd.
  assert (d = 0 ∨ d = 1 ∨ d = 2 ∨ d = 3 ∨ d = 4 ∨ d = 5 ∨ d = 6 ∨ d = 7
          ∨ d = 8 ∨ d = 9) as Hcases by lia.
  repeat destruct Hcases as [-> | Hcases]; try subst d; reflexivity.
Qed.

(** Reading [str(n)] as a decimal number gives [n] back. *)
Lemma decimal_value_str (n : N) : Spec.decimal_value (PyInt.str n) = n.
Proof.
  unfold Spec.decimal_value.
  induction n as [n IH] using (well_founded_induction N.lt_wf_0).
  destruct (N.lt_ge_cases n 10) as [Hlt|Hge].
  - rewrite str_small by assumption. simpl.
    rewrite digit_char_value by assumption. lia.
  - rewrite str_step, decimal_value_from_app by assumption.
    rewrite IH by (apply N.div_lt; lia). simpl.
    rewrite digit_char_value by (apply N.mod_lt; lia).
    rewrite (N.div_mod n 10) at 3 by lia. lia.
Qed.

Lemma strip_commas_app (a b : string) :
  Spec.strip_commas (a +:+ b) = Spec.strip_commas a +:+ Spec.strip_commas b.
Proof.
  induction a as [|c a IH]; [reflexivity | ].
  rewrite string_app_cons. simpl. rewrite IH.
  destruct (Ascii.eqb c ","); reflexivity.
Qed.

Lemma strip_commas_str (n : N) : Spec.strip_commas (PyInt.str n) = PyInt.str n.
Proof.
  induction n as [n IH] using (well_founded_induction N.lt_wf_0).
  destruct (N.lt_ge_cases n 10) as [Hlt|Hge].
  - rewrite str_small by assumption. simpl.
    rewrite digit_char_not_comma by assumption. reflexivity.
  - rewrite str_step, strip_commas_app by assumption.
    rewrite IH by (apply N.div_lt; lia). simpl.
    rewrite digit_char_not_comma by (apply N.mod_lt; lia). reflexivity.
Qed.

Lemma strip_commas_group3 (s : string) :
  Spec.strip_commas (PyInt.group3 s) = Spec.strip_commas s.
Proof.
  induction s as [|c s IH]; [reflexivity | ].
  rewrite group3_cons.
  destruct ((0 <? String.length s)%nat && (String.length s mod 3 =? 0)%nat);
    simpl; rewrite IH; reflexivity.
Qed.

(** The text of [{n:,}] denotes [n]. *)
Lemma format_comma_reads_back (n : N) :
  Spec.decimal_value (Spec.strip_commas (PyInt.format_comma n)) = n.
Proof.
  unfold PyInt.format_comma.
  rewrite strip_commas_group3, strip_commas_str.
  apply decimal_value_str.
Qed.

End ReadingBack.

(** ** [str] and [{n:,}] against the numerals of the standard library *)

Section Numerals.

Local Open Scope N_scope.

(** A parsed digit: the character, its value and the numeral built. *)
Lemma uint_of_char_digit (c : ascii) (d d' : Decimal.uint) :
  uint_of_char c (Some d) = Some d' →
  ∃ k, k < 10 ∧ N_of_ascii c - 48 = k
       ∧ N.of_uint d' = k * 10 ^ DecimalPos.Unsigned.usize d + N.of_uint d
       ∧ DecimalPos.Unsigned.usize d' = N.succ (DecimalPos.Unsigned.usize d)
       ∧ (∀ z, ∃ z', uint_of_char c (Some z) = Some z')
       ∧ (c ≠ "0"%char → Decimal.unorm d' = d').
Proof.
  intros H.
  assert (∀ x, N.of_uint x = DecimalPos.Unsigned.of_lu (Decimal.rev x)) as Halt
      by (intros x; apply DecimalPos.Unsigned.of_uint_alt).
  destruct (uint_of_char_spec c d d' H)
    as [[-> ->]|[[-> ->]|[[-> ->]|[[-> ->]|[[-> ->]|[[-> ->]|[[-> ->]|[[-> ->]
       |[[-> ->]|[-> ->]]]]]]]]]];
    [ exists 0 | exists 1 | exists 2 | exists 3 | exists 4
    | exists 5 | exists 6 | exists 7 | exists 8 | exists 9 ];
    (split; [lia | ]); (split; [reflexivity | ]);
    (split; [ rewrite !Halt; unfold Decimal.rev; simpl Decimal.revapp;
              rewrite DecimalPos.Unsigned.of_lu_revapp; simpl DecimalPos.Unsigned.of_lu;
              fold (Decimal.rev d); lia | ]);
    (split; [reflexivity | ]);
    (split; [ intros z; eexists; reflexivity | ]);
    intros Hc; first [ reflexivity | congruence ].
Qed.

(** The value of a string of digits, read with an accumulator. *)
Lemma decimal_value_of_uint (s : string) :
  ∀ d acc, NilEmpty.uint_of_string s = Some d →
    Spec.decimal_value_from acc s
    = acc * 10 ^ DecimalPos.Unsigned.usize d + N.of_uint d.
Proof.
  induction s as [|c s IH]; intros d acc H.
  - simpl in H. injection H as <-. simpl. lia.
  - simpl in H.
    destruct (NilEmpty.uint_of_string s) as [d0|] eqn:Hs; [ | discriminate H ].
    destruct (uint_of_char_digit c d0 d H) as (k & _ & Hk & Hval & Hsize & _).
    simpl Spec.decimal_value_from. rewrite (IH d0 _ eq_refl), Hk, Hval, Hsize.
    rewrite N.pow_succ_r'. lia.
Qed.

Lemma uint_of_string_app (a b : string) (da db : Decimal.uint) :
  NilEmpty.uint_of_string a = Some da →
  NilEmpty.uint_of_string b = Some db →
  ∃ d, NilEmpty.uint_of_string (a +:+ b) = Some d.
Proof.
  revert da. induction a as [|c a IH]; intros da Ha Hb; [eauto | ].
  rewrite string_app_cons. simpl in *.
  destruct (NilEmpty.uint_of_string a) as [d0|] eqn:Hs; [ | discriminate Ha ].
  destruct (IH d0 eq_refl Hb) as [d1 ->].
  destruct (uint_of_char_digit c d0 da Ha) as (_ & _ & _ & _ & _ & Hany & _).
  destruct (Hany d1) as [z' Hz']. eauto.
Qed.

Lemma uint_of_digit_char (k : N) :
  k < 10 →
  ∃ d, NilEmpty.uint_of_string (String (PyInt.digit_char k) EmptyString) = Some d.
Proof.
  intros Hk.
  assert (k = 0 ∨ k = 1 ∨ k = 2 ∨ k = 3 ∨ k = 4 ∨ k = 5 ∨ k = 6 ∨ k = 7
          ∨ k = 8 ∨ k = 9) as Hcases by lia.
  repeat destruct Hcases as [-> | Hcases]; try subst k; eexists; reflexivity.
Qed.

(** [str(n)] consists of digits. *)
Lemma str_parses (n : N) : ∃ d, NilEmpty.uint_of_string (PyInt.str n) = Some d.
Proof.
  induction n as [n IH] using (well_founded_induction N.lt_wf_0).
  destruct (N.lt_ge_cases n 10) as [Hlt|Hge].
  - rewrite str_small by assumption. apply uint_of_digit_char. assumption.
  - rewrite str_step by assumption.
    destruct (IH (n / 10) ltac:(apply N.div_lt; lia)) as [da Ha].
    destruct (uint_of_digit_char (n mod 10) ltac:(apply N.mod_lt; lia)) as [db Hb].
    exact (uint_of_string_app _ _ da db Ha Hb).
Qed.

(** [str(n)] does not begin with a zero, unless [n] is zero. *)
Lemma str_head_nonzero (n : N) :
  1 <= n → ∃ c rest, PyInt.str n = String c rest ∧ c ≠ "0"%char.
Proof.
  induction n as [n IH] using (well_founded_induction N.lt_wf_0). intros Hn.
  destruct (N.lt_ge_cases n 10) as [Hlt|Hge].
  - rewrite str_small by assumption.
    exists (PyInt.digit_char n), EmptyString. split; [reflexivity | ].
    assert (n = 1 ∨ n = 2 ∨ n = 3 ∨ n = 4 ∨ n = 5 ∨ n = 6 ∨ n = 7
            ∨ n = 8 ∨ n = 9) as Hcases by lia.
    repeat destruct Hcases as [-> | Hcases]; try subst n; discriminate.
  - rewrite str_step by assumption.
    destruct (IH (n / 10) ltac:(apply N.div_lt; lia)
                ltac:(apply N.div_le_lower_bound; lia)) as (c & rest & -> & Hc).
    rewrite string_app_cons. eauto.
Qed.

(** [str(n)] is the decimal numeral of [n]. *)
Lemma decimal_str (n : N) : Spec.decimal n = PyInt.str n.
Proof.
  unfold Spec.decimal.
  destruct (str_parses n) as [d Hd].
  assert (N.of_uint d = n) as Hval.
  { pose proof (decimal_value_of_uint _ d 0 Hd) as H.
    fold (Spec.decimal_value (PyInt.str n)) in H.
    rewrite decimal_value_str in H. lia. }
  assert (Decimal.unorm d = d) as Hnorm.
  { destruct (N.eq_dec n 0) as [-> | Hn0].
    - change (PyInt.str 0) with "0"%string in Hd. simpl in Hd.
      injection Hd as <-. reflexivity.
    - destruct (str_head_nonzero n ltac:(lia)) as (c & rest & Hstr & Hc).
      rewrite Hstr in Hd. simpl in Hd.
      destruct (NilEmpty.uint_of_string rest) as [d0|]; [ | discriminate Hd ].
      destruct (uint_of_char_digit c d0 d Hd) as (_ & _ & _ & _ & _ & _ & Hu).
      exact (Hu Hc). }
  rewrite <- Hval at 1. rewrite DecimalN.Unsigned.to_of, Hnorm.
  apply NilZero.sus.
  pose proof (str_nonempty n) as Hne.
  destruct (PyInt.str n); [congruence | exact Hd].
Qed.

(** The last three digits, as the specification pads them. *)
Lemma three_digits_last_three (m : N) :
  m < 1000 → Spec.three_digits m = last_three m.
Proof.
  intros Hm. unfold Spec.three_digits, last_three. rewrite decimal_str.
  destruct (N.lt_ge_cases m 10) as [H10|H10].
  { rewrite str_small by assumption.
    rewrite (N.div_small m 100), (N.div_small m 10), (N.mod_small m 10) by lia.
    reflexivity. }
  rewrite (str_step m) by assumption.
  destruct (N.lt_ge_cases m 100) as [H100|H100].
  { rewrite (str_small (m / 10)) by lia_div.
    rewrite (N.div_small m 100) by lia.
    rewrite (N.mod_small (m / 10) 10) by lia_div.
    reflexivity. }
  rewrite (str_step (m / 10)) by lia_div.
  rewrite (str_small (m / 10 / 10)) by lia_div.
  replace (m / 10 / 10) with (m / 100) by lia_div.
  reflexivity.
Qed.

(** The text produced by [{n:,}] is the grouped decimal rendering of
    [n] that the specification describes. *)
Lemma format_comma_thousands (n : N) :
  PyInt.format_comma n = Spec.thousands n.
Proof.
  unfold PyInt.format_comma.
  funelim (Spec.thousands n).
  - rewrite decimal_str. apply group3_short, str_length_below_1000. assumption.
  - rewrite (str_thousand n) by lia.
    rewrite group3_app; [ | apply str_nonempty | reflexivity ].
    rewrite H, three_digits_last_three by (apply N.mod_lt; lia).
    reflexivity.
Qed.

End Numerals.


(** ** How the report is printed *)

Section Report.

Variable rcd : list Byte.byte → exn + list ZipInfo.

Lemma entry_dict_name (file_info : ZipInfo) :
  entry_dict file_info !! "name" = Some (filename file_info).
Proof. unfold entry_dict. apply lookup_insert_eq. Qed.

Lemma entry_dict_size (file_info : ZipInfo) :
  entry_dict file_info !! "size"
  = Some (PyInt.format_comma (file_size file_info) +:+ " bytes").
Proof.
  unfold entry_dict. rewrite lookup_insert_ne by discriminate.
  apply lookup_singleton_eq.
Qed.


Lemma printed_printed (a b : string) (w : world) :
  printed b (printed a w) = printed (a +:+ b) w.
Proof. unfold printed. simpl. now rewrite string_app_assoc. Qed.

Lemma printed_nil (w : world) : printed EmptyString w = w.
Proof. unfold printed. rewrite string_app_nil_r. now destruct w. Qed.

Lemma print_run (s : string) (w : world) :
  print s w = (inr tt, printed (s +:+ nl) w).
Proof. reflexivity. Qed.

Lemma print_item_run (file_info : ZipInfo) (w : world) :
  print_item (entry_dict file_info) w = (inr tt, printed (row_text file_info) w).
Proof.
  unfold print_item, getitem.
  rewrite entry_dict_name, entry_dict_size.
  unfold mbind, M_bind, bind, mret, M_ret, ret. simpl.
  rewrite print_run. reflexivity.
Qed.

(** The [for] loop of [print_contents] prints the rows in order and
    raises no [KeyError]. *)
Lemma for_each_print_item (filelist : list ZipInfo) (w : world) :
  for_each (map entry_dict filelist) print_item w
  = (inr tt, printed (String.concat EmptyString (map row_text filelist)) w).
Proof.
  revert w. induction filelist as [|fi rest IH]; intros w.
  - simpl. now rewrite printed_nil.
  - change (map entry_dict (fi :: rest)) with (entry_dict fi :: map entry_dict rest).
    change (for_each (entry_dict fi :: map entry_dict rest) print_item w)
      with (bind (print_item (entry_dict fi))
              (λ _, for_each (map entry_dict rest) print_item) w).
    unfold bind. rewrite print_item_run, IH, printed_printed.
    f_equal. f_equal. simpl. destruct (map row_text rest); [ | reflexivity ].
    simpl. now rewrite string_app_nil_r.
Qed.

Lemma print_contents_run (w : world) (p : Pathlib.Path)
      (content : list Byte.byte) (filelist : list ZipInfo) :
  pbix_path (self w) = Some p →
  fs w (Pathlib.to_str p) = Found (RegularFile content) →
  rcd content = inr filelist →
  print_contents rcd w
  = (inr tt, printed (report_text (Pathlib.name p) filelist) w).
Proof.
  intros Hp Hfs Hzip. unfold print_contents.
  unfold mbind, M_bind. unfold bind at 1.
  rewrite (list_contents_run rcd w p Hp), Hfs, Hzip.
  unfold bind, get_pbix_path. rewrite Hp.
  rewrite !print_run. simpl self. simpl fs.
  rewrite for_each_print_item, print_run, !printed_printed.
  rewrite length_map. unfold report_text.
  rewrite !string_app_assoc. reflexivity.
Qed.

(** The text of the report, in the words of the specification. *)
Lemma report_text_lines (name : string) (filelist : list ZipInfo) :
  report_text name filelist
  = Spec.line EmptyString
    +:+ Spec.line ("Contents of " +:+ name +:+ ":")
    +:+ Spec.line Spec.rule
    +:+ String.concat EmptyString (map row_text filelist)
    +:+ Spec.line EmptyString
    +:+ Spec.line ("Total files: " +:+ Spec.decimal (N.of_nat (length filelist))).
Proof.
  unfold report_text.
  rewrite decimal_str, replicate_80_dashes, !app_nl_line.
  reflexivity.
Qed.

(** [print_contents] passes on whatever [list_contents] raises, and
    prints nothing in that case. *)
Lemma print_contents_propagates (w w' : world) (e : exn) :
  list_contents rcd w = (inl e, w') →
  print_contents rcd w = (inl e, w').
Proof.
  intros Hrun. unfold print_contents, mbind, M_bind. unfold bind at 1.
  rewrite Hrun. reflexivity.
Qed.

End Report.

(** ** The claims of the specification *)

Section Construction.


(** C9.  A file whose final path component is exactly [.pbix] has an
    empty extension, so constructing an inspector for it raises the
    invalid-extension error. *)
Theorem construct_rejects_bare_dot_pbix (raw : string) (w : world) :
  Pathlib.name (Pathlib.parse raw) = ".pbix" →
  Spec.exists_in (fs w) (Pathlib.parse raw) →
  Pathlib.suffix (Pathlib.parse raw) = EmptyString
  ∧ ∃ w', __init__ raw w
          = (inl (Raised ValueError "File must have .pbix extension, got: "), w').
Proof.
  intros Hname Hexists.
  assert (Pathlib.suffix (Pathlib.parse raw) = EmptyString) as Hsuf.
  { unfold Pathlib.suffix. rewrite Hname. reflexivity. }
  split; [assumption | ].
  exists (assigned (Pathlib.parse raw) w).
  rewrite init_bad_suffix; [ | assumption | rewrite Hsuf; discriminate ].
  rewrite Hsuf. reflexivity.
Qed.

End Construction.


Lemma construct_rejects_bare_dot_pbix_witness :
  Pathlib.suffix (Pathlib.parse "dir/.pbix") = EmptyString
  ∧ ∃ w', __init__ "dir/.pbix" Sample.start
          = (inl (Raised ValueError "File must have .pbix extension, got: "), w').
Proof.
  apply (construct_rejects_bare_dot_pbix "dir/.pbix" Sample.start).
  - reflexivity.
  - eexists. reflexivity.
Defined.

Section Listing.

Variable rcd : list Byte.byte → exn + list ZipInfo.

(** [list_contents] leaves the world as it found it, whatever it
    returns or raises. *)
Lemma list_contents_world (w : world) : snd (list_contents rcd w) = w.
Proof.
  destruct (pbix_path (self w)) as [p|] eqn:Hp.
  - rewrite (list_contents_run rcd w p Hp).
    destruct (fs w (Pathlib.to_str p)) as [[content|]|e]; try reflexivity.
    destruct (rcd content) as [e|filelist]; [ | reflexivity ].
    destruct (decide (exn_cls e = BadZipFile)); reflexivity.
  - unfold list_contents. run_M. rewrite Hp. reflexivity.
Qed.

(** The result of [list_contents] depends on the bound path and on what
    that path names, and on nothing else. *)
Lemma list_contents_depends_on_file (w1 w2 : world) :
  self w1 = self w2 →
  (∀ p, pbix_path (self w1) = Some p →
        fs w1 (Pathlib.to_str p) = fs w2 (Pathlib.to_str p)) →
  fst (list_contents rcd w1) = fst (list_contents rcd w2).
Proof.
  intros Hself Hfile.
  destruct (pbix_path (self w1)) as [p|] eqn:Hp.
  - assert (pbix_path (self w2) = Some p) as Hp2 by (rewrite <- Hself; exact Hp).
    rewrite (list_contents_run rcd w1 p Hp), (list_contents_run rcd w2 p Hp2).
    rewrite <- (Hfile p eq_refl).
    destruct (fs w1 (Pathlib.to_str p)) as [[content|]|e]; try reflexivity.
    destruct (rcd content) as [e|filelist]; [ | reflexivity ].
    destruct (decide (exn_cls e = BadZipFile)); reflexivity.
  - assert (pbix_path (self w2) = None) as Hp2 by (rewrite <- Hself; exact Hp).
    unfold list_contents. run_M. rewrite Hp, Hp2. reflexivity.
Qed.

(** C1 (amended).  For every existing file whose extension, lower-cased,
    is [.pbix] and whose bytes are a well-formed archive, construction
    succeeds and [list_contents] returns one record per archive entry, in
    central-directory order; the length of the result is the number of
    entries. *)
Theorem list_contents_one_record_per_entry
        (raw : string) (w : world) (content : list Byte.byte)
        (filelist : list ZipInfo) :
  fs w (Pathlib.to_str (Pathlib.parse raw)) = Found (RegularFile content) →
  Spec.has_pbix_extension (Pathlib.parse raw) →
  rcd content = inr filelist →
  ∃ w' contents,
    __init__ raw w = (inr tt, w')
    ∧ list_contents rcd w' = (inr contents, w')
    ∧ contents = map entry_dict filelist
    ∧ length contents = length filelist.
Proof.
  intros Hfs Hext Hzip.
  exists (assigned (Pathlib.parse raw) w), (map entry_dict filelist).
  split; [ apply init_ok; [eexists; exact Hfs | exact Hext] | ].
  split; [ | split; [reflexivity | apply length_map] ].
  rewrite (list_contents_run rcd (assigned (Pathlib.parse raw) w) (Pathlib.parse raw) eq_refl).
  simpl fs. rewrite Hfs, Hzip. reflexivity.
Qed.


(** C5.  For every archive entry, the ['size'] field of its record is the
    stored byte count as a decimal integer with comma grouping
    separators, followed by [" bytes"]. *)
Theorem list_contents_size_field
        (w : world) (p : Pathlib.Path) (content : list Byte.byte)
        (filelist : list ZipInfo) :
  pbix_path (self w) = Some p →
  fs w (Pathlib.to_str p) = Found (RegularFile content) →
  rcd content = inr filelist →
  ∃ contents,
    list_contents rcd w = (inr contents, w)
    ∧ ∀ (i : nat) (file_info : ZipInfo),
        filelist !! i = Some file_info →
        ∃ item, contents !! i = Some item
                ∧ item !! "size"
                  = Some (Spec.thousands (file_size file_info) +:+ " bytes").
Proof.
  intros Hp Hfs Hzip. exists (map entry_dict filelist).
  split.
  - rewrite (list_contents_run rcd w p Hp), Hfs, Hzip. reflexivity.
  - intros i file_info Hi. exists (entry_dict file_info).
    split.
    + rewrite list_lookup_fmap, Hi. reflexivity.
    + rewrite entry_dict_size, format_comma_thousands. reflexivity.
Qed.

(** C7.  When the inspector and the file it is bound to are the same at
    the second call as after the first, the second call returns what the
    first returned. *)
Theorem list_contents_twice
        (w w1 w2 : world) (r : exn + list (gmap string string)) :
  list_contents rcd w = (r, w1) →
  self w2 = self w1 →
  (∀ p, pbix_path (self w1) = Some p →
        fs w2 (Pathlib.to_str p) = fs w1 (Pathlib.to_str p)) →
  fst (list_contents rcd w2) = r.
Proof.
  intros Hfirst Hself Hfile.
  pose proof (list_contents_world w) as Hw. rewrite Hfirst in Hw. simpl in Hw.
  subst w1.
  rewrite (list_contents_depends_on_file w2 w).
  - rewrite Hfirst. reflexivity.
  - exact Hself.
  - intros p Hp. apply Hfile. rewrite <- Hself. exact Hp.
Qed.

End Listing.

Section Rendering.

Variable rcd : list Byte.byte → exn + list ZipInfo.

(** [list_contents] either raises, or returns the records of the
    [filelist] that [zipfile] read from the bound file. *)
Lemma list_contents_cases (w : world) :
  (∃ e, list_contents rcd w = (inl e, w))
  ∨ (∃ p content filelist,
       pbix_path (self w) = Some p
       ∧ fs w (Pathlib.to_str p) = Found (RegularFile content)
       ∧ rcd content = inr filelist
       ∧ list_contents rcd w = (inr (map entry_dict filelist), w)).
Proof.
  destruct (pbix_path (self w)) as [p|] eqn:Hp.
  - rewrite (list_contents_run rcd w p Hp).
    destruct (fs w (Pathlib.to_str p)) as [[content|]|e0] eqn:Hfs; eauto.
    destruct (rcd content) as [e|filelist] eqn:Hzip.
    + destruct (decide (exn_cls e = BadZipFile)); eauto.
    + right. exists p, content, filelist. rewrite Hfs. eauto.
  - left. unfold list_contents. run_M. rewrite Hp. eauto.
Qed.

(** [print_contents] touches neither the instance nor the disk. *)
Lemma print_contents_keeps (w : world) :
  self (snd (print_contents rcd w)) = self w
  ∧ fs (snd (print_contents rcd w)) = fs w.
Proof.
  destruct (list_contents_cases w)
    as [[e Hfail] | (p & content & filelist & Hp & Hfs & Hzip & _)].
  - rewrite (print_contents_propagates rcd w w e Hfail). split; reflexivity.
  - rewrite (print_contents_run rcd w p content filelist Hp Hfs Hzip).
    split; reflexivity.
Qed.


(** C10.  For a well-formed archive without entries, [list_contents]
    returns the empty list and [print_contents] prints the header, the
    separator line of 80 dashes, no rows, and the final line
    [Total files: 0]; an empty line precedes the header and the final
    line, and every line ends with a line feed. *)
Theorem empty_archive_listing_and_report
        (w : world) (p : Pathlib.Path) (content : list Byte.byte) :
  pbix_path (self w) = Some p →
  fs w (Pathlib.to_str p) = Found (RegularFile content) →
  rcd content = inr [] →
  list_contents rcd w = (inr [], w)
  ∧ print_contents rcd w
    = (inr tt,
       MkWorld (self w) (fs w)
         (stdout w
          +:+ Spec.line EmptyString
          +:+ Spec.line ("Contents of " +:+ Pathlib.name p +:+ ":")
          +:+ Spec.line Spec.rule
          +:+ Spec.line EmptyString
          +:+ Spec.line "Total files: 0")).
Proof.
  intros Hp Hfs Hzip. split.
  - rewrite (list_contents_run rcd w p Hp), Hfs, Hzip. reflexivity.
  - rewrite (print_contents_run rcd w p content [] Hp Hfs Hzip).
    unfold printed. rewrite report_text_lines. reflexivity.
Qed.

(** C8.  A successful [__init__] establishes the invariant that the
    bound path exists and has the extension [.pbix] up to case;
    [list_contents] and [print_contents] reassign no attribute and leave
    the disk as it is, so the invariant is kept. *)
Theorem bound_path_invariant :
  (∀ raw w w', __init__ raw w = (inr tt, w') → Spec.bound w')
  ∧ (∀ w r w', Spec.bound w → list_contents rcd w = (r, w') →
               self w' = self w ∧ fs w' = fs w ∧ Spec.bound w')
  ∧ (∀ w r w', Spec.bound w → print_contents rcd w = (r, w') →
               self w' = self w ∧ fs w' = fs w ∧ Spec.bound w').
Proof.
  assert (∀ w w', Spec.bound w → self w' = self w → fs w' = fs w → Spec.bound w')
    as Hkeep.
  { intros w w' (p & Hp & Hex & Hext) Hself Hfs. exists p.
    unfold Spec.exists_in. rewrite Hself, Hfs. auto. }
  split; [ | split ].
  - intros raw w w' Hrun.
    apply init_success_inv in Hrun as (-> & Hsome & Hext).
    exists (Pathlib.parse raw). auto.
  - intros w r w' Hb Hrun.
    pose proof (list_contents_world rcd w) as Hw. rewrite Hrun in Hw.
    simpl in Hw. subst w'. auto.
  - intros w r w' Hb Hrun.
    destruct (print_contents_keeps w) as [Hself Hfs]. rewrite Hrun in Hself, Hfs.
    simpl in Hself, Hfs. eauto.
Qed.

(** C2 (amended).  The conditions are raised with two classes.  Of
    [__init__], a [FileNotFoundError] is the not-found condition and a
    [ValueError] is the invalid-extension condition; the only other
    exceptions of [__init__] are the errors of the lookup that the
    existence test passes on, and they have neither class.  The
    corrupt-archive condition is a [ValueError] too, the class of the
    invalid-extension condition: [list_contents] raises it exactly where
    [zipfile] raised [BadZipFile], and passes every other exception of
    the opening on unchanged, whatever its class.  [print_contents]
    raises what [list_contents] raises. *)
Theorem error_kinds_and_classes :
  (∀ raw w e w',
     __init__ raw w = (inl e, w') →
     (e = not_found_error raw
      ∧ exn_cls e = FileNotFoundError
      ∧ Spec.absent_in (fs w) (Pathlib.parse raw))
     ∨ (e = invalid_extension_error (Pathlib.parse raw)
        ∧ exn_cls e = ValueError
        ∧ Spec.exists_in (fs w) (Pathlib.parse raw)
        ∧ ¬ Spec.has_pbix_extension (Pathlib.parse raw))
     ∨ (∃ err, fs w (Pathlib.to_str (Pathlib.parse raw)) = Fails err
               ∧ ¬ In err Spec.taken_for_absence
               ∧ e = os_exception err (Pathlib.to_str (Pathlib.parse raw))
               ∧ exn_cls e ≠ FileNotFoundError
               ∧ exn_cls e ≠ ValueError))
  ∧ (∀ w p e w',
       pbix_path (self w) = Some p →
       list_contents rcd w = (inl e, w') →
       (e = corrupt_archive_error p
        ∧ exn_cls e = ValueError
        ∧ ∃ bad, ZipFile_open rcd p w = (inl bad, w')
                 ∧ exn_cls bad = BadZipFile)
       ∨ (ZipFile_open rcd p w = (inl e, w') ∧ exn_cls e ≠ BadZipFile))
  ∧ (∀ w e w',
       print_contents rcd w = (inl e, w') →
       list_contents rcd w = (inl e, w'))
  ∧ (∀ p p',
       exn_cls (invalid_extension_error p) = exn_cls (corrupt_archive_error p')).
Proof.
  split; [ | split; [ | split ] ].
  - intros raw w e w' Hrun.
    destruct (lookup_cases (fs w) (Pathlib.parse raw))
      as [Hex | [Habs | (err & Herr & Hign)]].
    + destruct (string_dec (PyStr.lower (Pathlib.suffix (Pathlib.parse raw))) ".pbix")
        as [Hext|Hext].
      * rewrite init_ok in Hrun by assumption. discriminate.
      * rewrite init_bad_suffix in Hrun by assumption.
        inversion Hrun. right. left. auto.
    + rewrite init_not_found in Hrun by assumption.
      inversion Hrun. left. auto.
    + rewrite (init_lookup_error raw w err Herr Hign) in Hrun.
      inversion Hrun. right. right. exists err.
      split; [assumption | ]. split; [assumption | ]. split; [reflexivity | ].
      destruct err; simpl in *; split; first [discriminate | intuition congruence].
  - intros w p e w' Hp Hrun.
    rewrite (list_contents_run rcd w p Hp) in Hrun.
    unfold ZipFile_open.
    destruct (fs w (Pathlib.to_str p)) as [[content|]|err].
    + destruct (rcd content) as [bad|filelist]; [ | discriminate ].
      destruct (decide (exn_cls bad = BadZipFile)) as [Hbad|Hbad];
        inversion Hrun; subst; [ left | right ]; eauto.
    + inversion Hrun. right. split; [reflexivity | discriminate].
    + inversion Hrun. right. split; [reflexivity | destruct err; discriminate].
  - intros w e w' Hrun.
    destruct (list_contents_cases w)
      as [[e0 Hfail] | (p & content & filelist & Hp & Hfs & Hzip & _)].
    + rewrite (print_contents_propagates rcd w w e0 Hfail) in Hrun.
      inversion Hrun. subst. exact Hfail.
    + rewrite (print_contents_run rcd w p content filelist Hp Hfs Hzip) in Hrun.
      discriminate.
  - reflexivity.
Qed.

End Rendering.

(** ** The claims on the sample disk *)

(** C1, as worded: the path [.pbix] ends in [.pbix], exists and holds a
    well-formed archive, and yet no inspector can be built for it. *)
Lemma dot_pbix_archive_is_rejected :
  Spec.ends_in_pbix ".pbix" = true
  ∧ fs Sample.start (Pathlib.to_str (Pathlib.parse ".pbix"))
    = Found (RegularFile Sample.two_entries_zip)
  ∧ Sample.reader Sample.two_entries_zip = inr Sample.two_entries
  ∧ fst (__init__ ".pbix" Sample.start)
    = inl (Raised ValueError "File must have .pbix extension, got: ")
  ∧ ¬ ∃ w', __init__ ".pbix" Sample.start = (inr tt, w').
Proof.
  repeat split; try reflexivity.
  intros [w' Hrun]. apply (f_equal fst) in Hrun. vm_compute in Hrun. discriminate.
Qed.

Lemma list_contents_one_record_per_entry_witness :
  ∃ w' contents,
    __init__ "model.pbix" Sample.start = (inr tt, w')
    ∧ list_contents Sample.reader w' = (inr contents, w')
    ∧ contents = map entry_dict Sample.two_entries
    ∧ length contents = 2.
Proof.
  apply (list_contents_one_record_per_entry Sample.reader "model.pbix" Sample.start
           Sample.two_entries_zip Sample.two_entries).
  - reflexivity.
  - reflexivity.
  - reflexivity.
Defined.




(** C2, as worded: no way of reading the condition off the exception class
    alone is right for every failure, because an existing [report.txt] and
    a corrupt [broken.pbix] both end in a [ValueError]. *)
Lemma error_class_alone_does_not_determine_kind :
  ¬ ∃ classify : exn_class → Spec.condition,
      ∀ op c e, fails_with Sample.reader op c e → classify (exn_cls e) = c.
Proof.
  intros [classify Hclassify].
  assert (fails_with Sample.reader Spec.Construct Spec.InvalidExtension
            (invalid_extension_error (Pathlib.parse "report.txt"))) as Hext.
  { apply (fails_invalid_extension Sample.reader "report.txt" Sample.start _
             (assigned (Pathlib.parse "report.txt") Sample.start)).
    - eexists. reflexivity.
    - vm_compute. discriminate.
    - reflexivity. }
  assert (fails_with Sample.reader Spec.ListEntries Spec.CorruptArchive
            (corrupt_archive_error (Pathlib.parse "broken.pbix"))) as Hzip.
  { apply (fails_corrupt_archive Sample.reader
             (assigned (Pathlib.parse "broken.pbix") Sample.start)
             (Pathlib.parse "broken.pbix") Sample.garbage
             (Raised BadZipFile "File is not a zip file") _
             (assigned (Pathlib.parse "broken.pbix") Sample.start));
      reflexivity. }
  apply Hclassify in Hext. apply Hclassify in Hzip.
  simpl in Hext, Hzip. congruence.
Qed.

Lemma error_kinds_and_classes_witness :
  ((invalid_extension_error (Pathlib.parse "report.txt")
    = not_found_error "report.txt"
    ∧ exn_cls (invalid_extension_error (Pathlib.parse "report.txt")) = FileNotFoundError
    ∧ Spec.absent_in (fs Sample.start) (Pathlib.parse "report.txt"))
   ∨ (invalid_extension_error (Pathlib.parse "report.txt")
      = invalid_extension_error (Pathlib.parse "report.txt")
      ∧ exn_cls (invalid_extension_error (Pathlib.parse "report.txt")) = ValueError
      ∧ Spec.exists_in (fs Sample.start) (Pathlib.parse "report.txt")
      ∧ ¬ Spec.has_pbix_extension (Pathlib.parse "report.txt"))
   ∨ (∃ err,
        fs Sample.start (Pathlib.to_str (Pathlib.parse "report.txt")) = Fails err
        ∧ ¬ In err Spec.taken_for_absence
        ∧ invalid_extension_error (Pathlib.parse "report.txt")
          = os_exception err (Pathlib.to_str (Pathlib.parse "report.txt"))
        ∧ exn_cls (invalid_extension_error (Pathlib.parse "report.txt"))
          ≠ FileNotFoundError
        ∧ exn_cls (invalid_extension_error (Pathlib.parse "report.txt"))
          ≠ ValueError))
  ∧ list_contents Sample.reader (assigned (Pathlib.parse "broken.pbix") Sample.start)
    = (inl (corrupt_archive_error (Pathlib.parse "broken.pbix")),
       assigned (Pathlib.parse "broken.pbix") Sample.start).
Proof.
  split.
  - apply (proj1 (error_kinds_and_classes Sample.reader)
             "report.txt" Sample.start _
             (assigned (Pathlib.parse "report.txt") Sample.start)).
    reflexivity.
  - apply (proj1 (proj2 (proj2 (error_kinds_and_classes Sample.reader)))
             (assigned (Pathlib.parse "broken.pbix") Sample.start)).
    reflexivity.
Defined.

Lemma list_contents_size_field_witness :
  ∃ contents item0 item1,
    list_contents Sample.reader (assigned (Pathlib.parse "model.pbix") Sample.start)
    = (inr contents, assigned (Pathlib.parse "model.pbix") Sample.start)
    ∧ contents !! 0 = Some item0
    ∧ item0 !! "size" = Some "2,048 bytes"
    ∧ contents !! 1 = Some item1
    ∧ item1 !! "size" = Some "512 bytes".
Proof.
  destruct (list_contents_size_field Sample.reader
              (assigned (Pathlib.parse "model.pbix") Sample.start)
              (Pathlib.parse "model.pbix") Sample.two_entries_zip Sample.two_entries
              eq_refl eq_refl eq_refl) as (contents & Hrun & Hsize).
  destruct (Hsize 0 (MkZipInfo "DataModel" 2048) eq_refl) as (item0 & Hi0 & Hs0).
  destruct (Hsize 1 (MkZipInfo "Report/Layout" 512) eq_refl) as (item1 & Hi1 & Hs1).
  exists contents, item0, item1.
  split; [exact Hrun | ].
  split; [exact Hi0 | ].
  split; [exact Hs0 | ].
  split; [exact Hi1 | exact Hs1].
Defined.

Lemma list_contents_twice_witness :
  fst (list_contents Sample.reader
         (printed "noise" (assigned (Pathlib.parse "model.pbix") Sample.start)))
  = inr (map entry_dict Sample.two_entries).
Proof.
  apply (list_contents_twice Sample.reader
           (assigned (Pathlib.parse "model.pbix") Sample.start)
           (assigned (Pathlib.parse "model.pbix") Sample.start)
           (printed "noise" (assigned (Pathlib.parse "model.pbix") Sample.start))).
  - reflexivity.
  - reflexivity.
  - intros p Hp. reflexivity.
Defined.


Lemma empty_archive_listing_and_report_witness :
  list_contents Sample.reader (assigned (Pathlib.parse "empty.PBIX") Sample.start)
  = (inr [], assigned (Pathlib.parse "empty.PBIX") Sample.start)
  ∧ print_contents Sample.reader (assigned (Pathlib.parse "empty.PBIX") Sample.start)
    = (inr tt,
       MkWorld (MkInstance (Some (Pathlib.parse "empty.PBIX"))) Sample.disk
         (String "010"
            ("Contents of empty.PBIX:"
             +:+ String "010"
                   ("--------------------------------------------------------------------------------"
                    +:+ String "010"
                          (String "010" ("Total files: 0" +:+ String "010" EmptyString)))))).
Proof.
  exact (empty_archive_listing_and_report Sample.reader
           (assigned (Pathlib.parse "empty.PBIX") Sample.start)
           (Pathlib.parse "empty.PBIX") Sample.empty_zip
           eq_refl eq_refl eq_refl).
Defined.

Lemma bound_path_invariant_witness :
  Spec.bound (assigned (Pathlib.parse "model.pbix") Sample.start)
  ∧ Spec.bound (snd (list_contents Sample.reader
                       (assigned (Pathlib.parse "model.pbix") Sample.start)))
  ∧ Spec.bound (snd (print_contents Sample.reader
                       (assigned (Pathlib.parse "model.pbix") Sample.start))).
Proof.
  destruct (bound_path_invariant Sample.reader) as (Hinit & Hlist & Hprint).
  assert (Spec.bound (assigned (Pathlib.parse "model.pbix") Sample.start)) as Hb.
  { apply (Hinit "model.pbix" Sample.start). reflexivity. }
  split; [exact Hb | split].
  - eapply Hlist; [exact Hb | ]. apply surjective_pairing.
  - eapply Hprint; [exact Hb | ]. apply surjective_pairing.
Defined.

(** ** Further properties of [__init__] *)

Section ConstructionMore.

(** [__init__] looks at no more of the disk than the existence test does:
    on two disks on which the test answers alike, it returns or raises
    alike, whatever the path names on each. *)
Theorem init_ignores_content (raw : string) (w1 w2 : world) :
  exists_answer (fs w1) (Pathlib.parse raw)
  = exists_answer (fs w2) (Pathlib.parse raw) →
  fst (__init__ raw w1) = fst (__init__ raw w2).
Proof.
  intros Hsame. unfold __init__.
  unfold mbind, M_bind, bind, set_pbix_path, get_pbix_path, path_exists. simpl.
  rewrite Hsame.
  destruct (exists_answer (fs w2) (Pathlib.parse raw)) as [e|[|]]; simpl;
    try reflexivity.
  destruct (String.eqb (PyStr.lower (Pathlib.suffix (Pathlib.parse raw))) ".pbix");
    reflexivity.
Qed.

(** The assignment comes before the checks: an [__init__] that raises has
    already bound the instance to the rejected path, so the instance does
    not satisfy the invariant; the disk and standard output are as
    before. *)
Theorem init_failure_leaves_path_assigned
        (raw : string) (w w' : world) (e : exn) :
  __init__ raw w = (inl e, w') →
  pbix_path (self w') = Some (Pathlib.parse raw)
  ∧ fs w' = fs w ∧ stdout w' = stdout w
  ∧ ¬ Spec.bound w'.
Proof.
  intros Hrun.
  assert (w' = assigned (Pathlib.parse raw) w
          ∧ ¬ (Spec.exists_in (fs w) (Pathlib.parse raw)
               ∧ Spec.has_pbix_extension (Pathlib.parse raw))) as [-> Hnot].
  { destruct (lookup_cases (fs w) (Pathlib.parse raw))
      as [Hex | [Habs | (err & Herr & Hign)]].
    - destruct (string_dec (PyStr.lower (Pathlib.suffix (Pathlib.parse raw))) ".pbix")
        as [Hext|Hext].
      + rewrite init_ok in Hrun by assumption. discriminate.
      + rewrite init_bad_suffix in Hrun by assumption.
        inversion Hrun. split; [reflexivity | ]. intros [_ H]. contradiction.
    - rewrite init_not_found in Hrun by assumption.
      inversion Hrun. split; [reflexivity | ].
      intros [Hex _]. exact (exists_not_absent _ _ Hex Habs).
    - rewrite (init_lookup_error raw w err Herr Hign) in Hrun.
      inversion Hrun. split; [reflexivity | ].
      intros [[n Hn] _]. congruence. }
  repeat split.
  intros (p & Hp & Hex & Hext). simpl in Hp. inversion Hp. subst p.
  apply Hnot. split; assumption.
Qed.

(** An existing path whose text ends in [.pbix] up to case, and whose
    final component does not begin with a dot, is accepted by
    [__init__]. *)
Theorem init_accepts_names_ending_in_pbix (raw : string) (w : world) :
  Spec.ends_in_pbix raw = true →
  Spec.exists_in (fs w) (Pathlib.parse raw) →
  (∀ rest, Pathlib.name (Pathlib.parse raw) ≠ String "." rest) →
  __init__ raw w = (inr tt, assigned (Pathlib.parse raw) w).
Proof.
  intros Hend Hex Hplain.
  destruct (ends_in_pbix_cases raw Hend) as [[Hname _] | [_ Hext]].
  - exfalso.
    assert (∃ rest, Pathlib.name (Pathlib.parse raw) = String "." rest) as [rest Hrest].
    { destruct (Pathlib.name (Pathlib.parse raw)) as [|c rest]; [discriminate | ].
      simpl in Hname. injection Hname as Hc _.
      apply lower_char_dot in Hc. subst c. eauto. }
    exact (Hplain rest Hrest).
  - apply init_ok; assumption.
Qed.

End ConstructionMore.

(** [model.pbix] is a file on the sample disk; on the second disk it is a
    directory. *)
Lemma init_ignores_content_witness :
  fst (__init__ "model.pbix" Sample.start)
  = fst (__init__ "model.pbix"
           (MkWorld (MkInstance None) (λ _, Found Directory) "earlier output")).
Proof.
  apply (init_ignores_content "model.pbix" Sample.start
           (MkWorld (MkInstance None) (λ _, Found Directory) "earlier output")).
  reflexivity.
Defined.

Lemma init_failure_leaves_path_assigned_witness :
  pbix_path (self (assigned (Pathlib.parse "report.txt") Sample.start))
  = Some (Pathlib.parse "report.txt")
  ∧ fs (assigned (Pathlib.parse "report.txt") Sample.start) = fs Sample.start
  ∧ stdout (assigned (Pathlib.parse "report.txt") Sample.start) = stdout Sample.start
  ∧ ¬ Spec.bound (assigned (Pathlib.parse "report.txt") Sample.start).
Proof.
  apply (init_failure_leaves_path_assigned "report.txt" Sample.start _
           (invalid_extension_error (Pathlib.parse "report.txt"))).
  reflexivity.
Defined.

Lemma init_accepts_names_ending_in_pbix_witness :
  __init__ "empty.PBIX" Sample.start
  = (inr tt, assigned (Pathlib.parse "empty.PBIX") Sample.start).
Proof.
  apply (init_accepts_names_ending_in_pbix "empty.PBIX" Sample.start).
  - reflexivity.
  - eexists. reflexivity.
  - intros rest. vm_compute. discriminate.
Defined.

(** ** Further properties of [list_contents] *)

Section ListingMore.

Variable rcd : list Byte.byte → exn + list ZipInfo.

(** Only [BadZipFile] is turned into the corrupt-archive error: any other
    exception raised while the archive is opened reaches the caller of
    [list_contents] as it is. *)
Theorem list_contents_passes_other_errors
        (w w' : world) (p : Pathlib.Path) (e : exn) :
  pbix_path (self w) = Some p →
  ZipFile_open rcd p w = (inl e, w') →
  exn_cls e ≠ BadZipFile →
  list_contents rcd w = (inl e, w').
Proof.
  intros Hp Hopen Hcls. unfold list_contents. run_M. rewrite Hp, Hopen.
  destruct (decide (exn_cls e = BadZipFile)); [contradiction | reflexivity].
Qed.

(** The existence check of [__init__] is not repeated: when the bound path
    no longer exists at the time of the call, [list_contents] raises the
    [FileNotFoundError] of [open], not a [ValueError]. *)
Theorem list_contents_after_removal (w : world) (p : Pathlib.Path) :
  pbix_path (self w) = Some p →
  fs w (Pathlib.to_str p) = Fails ENOENT →
  ∃ e, list_contents rcd w = (inl e, w) ∧ exn_cls e = FileNotFoundError.
Proof.
  intros Hp Hfs. rewrite (list_contents_run rcd w p Hp), Hfs. eauto.
Qed.

(** Every record has the two keys ['name'] and ['size'] and no other, and
    ['name'] is the entry's file name as stored. *)
Theorem list_contents_record_keys
        (w : world) (p : Pathlib.Path) (content : list Byte.byte)
        (filelist : list ZipInfo) :
  pbix_path (self w) = Some p →
  fs w (Pathlib.to_str p) = Found (RegularFile content) →
  rcd content = inr filelist →
  ∃ contents,
    list_contents rcd w = (inr contents, w)
    ∧ ∀ (i : nat) (file_info : ZipInfo),
        filelist !! i = Some file_info →
        ∃ item, contents !! i = Some item
                ∧ item !! "name" = Some (filename file_info)
                ∧ dom item = ({[ "name"; "size" ]} : gset string).
Proof.
  intros Hp Hfs Hzip. exists (map entry_dict filelist). split.
  - rewrite (list_contents_run rcd w p Hp), Hfs, Hzip. reflexivity.
  - intros i file_info Hi. exists (entry_dict file_info).
    split; [ rewrite list_lookup_fmap, Hi; reflexivity | ].
    split; [ apply entry_dict_name | ].
    unfold entry_dict. rewrite dom_insert_L, dom_singleton_L. reflexivity.
Qed.

Lemma string_app_inv_r (a b c : string) : a +:+ c = b +:+ c → a = b.
Proof.
  intros H.
  assert (String.length a = String.length b) as Hlen.
  { apply (f_equal String.length) in H. rewrite !string_length_app in H. lia. }
  revert b H Hlen. induction a as [|x a IH]; intros [|y b] H Hlen;
    simpl in Hlen; try discriminate; [reflexivity | ].
  rewrite !string_app_cons in H. injection H as -> H.
  f_equal. apply IH; [exact H | lia].
Qed.

Lemma entry_dict_inj (f1 f2 : ZipInfo) : entry_dict f1 = entry_dict f2 → f1 = f2.
Proof.
  intros H.
  pose proof (entry_dict_name f1) as Hn. rewrite H, entry_dict_name in Hn.
  pose proof (entry_dict_size f1) as Hs. rewrite H, entry_dict_size in Hs.
  injection Hn as Hn. injection Hs as Hs.
  apply string_app_inv_r in Hs.
  apply (f_equal (λ t, Spec.decimal_value (Spec.strip_commas t))) in Hs.
  rewrite !format_comma_reads_back in Hs.
  destruct f1, f2. simpl in *. congruence.
Qed.

(** The listing loses nothing: two archives whose listings are equal have
    the same entry names and the same sizes, entry by entry. *)
Theorem list_contents_determines_entries
        (w1 w2 : world) (p1 p2 : Pathlib.Path) (c1 c2 : list Byte.byte)
        (l1 l2 : list ZipInfo) :
  pbix_path (self w1) = Some p1 →
  fs w1 (Pathlib.to_str p1) = Found (RegularFile c1) →
  rcd c1 = inr l1 →
  pbix_path (self w2) = Some p2 →
  fs w2 (Pathlib.to_str p2) = Found (RegularFile c2) →
  rcd c2 = inr l2 →
  fst (list_contents rcd w1) = fst (list_contents rcd w2) →
  l1 = l2.
Proof.
  intros Hp1 Hfs1 Hz1 Hp2 Hfs2 Hz2 Heq.
  rewrite (list_contents_run rcd w1 p1 Hp1), Hfs1, Hz1 in Heq.
  rewrite (list_contents_run rcd w2 p2 Hp2), Hfs2, Hz2 in Heq.
  simpl in Heq.
  assert (map entry_dict l1 = map entry_dict l2) as Hmaps
      by (clear - Heq; congruence).
  clear - Hmaps. rename Hmaps into Heq.
  revert l2 Heq. induction l1 as [|f1 l1 IH]; intros [|f2 l2] Heq;
    simpl in Heq; try discriminate; [reflexivity | ].
  assert (entry_dict f1 = entry_dict f2) as Hhead
      by exact (f_equal (λ t, List.hd (entry_dict f1) t) Heq).
  assert (map entry_dict l1 = map entry_dict l2) as Htail
      by exact (f_equal (λ t, List.tl t) Heq).
  f_equal; [apply entry_dict_inj; exact Hhead | apply IH; exact Htail].
Qed.

End ListingMore.

Lemma list_contents_passes_other_errors_witness :
  list_contents Sample.reader (assigned (Pathlib.parse "folder.pbix") Sample.start)
  = (inl (Raised IsADirectoryError "[Errno 21] Is a directory: 'folder.pbix'"),
     assigned (Pathlib.parse "folder.pbix") Sample.start).
Proof.
  apply (list_contents_passes_other_errors Sample.reader
           (assigned (Pathlib.parse "folder.pbix") Sample.start) _
           (Pathlib.parse "folder.pbix")).
  - reflexivity.
  - reflexivity.
  - simpl. discriminate.
Defined.

(** The inspector was bound to [model.pbix]; the disk is now empty. *)
Lemma list_contents_after_removal_witness :
  ∃ e, list_contents Sample.reader
         (MkWorld (MkInstance (Some (Pathlib.parse "model.pbix"))) (λ _, Fails ENOENT) "")
       = (inl e,
          MkWorld (MkInstance (Some (Pathlib.parse "model.pbix"))) (λ _, Fails ENOENT) "")
       ∧ exn_cls e = FileNotFoundError.
Proof.
  apply (list_contents_after_removal Sample.reader
           (MkWorld (MkInstance (Some (Pathlib.parse "model.pbix"))) (λ _, Fails ENOENT) "")
           (Pathlib.parse "model.pbix")).
  - reflexivity.
  - reflexivity.
Defined.

Lemma list_contents_record_keys_witness :
  ∃ contents,
    list_contents Sample.reader (assigned (Pathlib.parse "model.pbix") Sample.start)
    = (inr contents, assigned (Pathlib.parse "model.pbix") Sample.start)
    ∧ ∀ (i : nat) (file_info : ZipInfo),
        Sample.two_entries !! i = Some file_info →
        ∃ item, contents !! i = Some item
                ∧ item !! "name" = Some (filename file_info)
                ∧ dom item = ({[ "name"; "size" ]} : gset string).
Proof.
  apply (list_contents_record_keys Sample.reader
           (assigned (Pathlib.parse "model.pbix") Sample.start)
           (Pathlib.parse "model.pbix") Sample.two_entries_zip Sample.two_entries).
  - reflexivity.
  - reflexivity.
  - reflexivity.
Defined.

(** [model.pbix] and [.pbix] hold the same archive on the sample disk. *)
Lemma list_contents_determines_entries_witness :
  Sample.two_entries = Sample.two_entries.
Proof.
  apply (list_contents_determines_entries Sample.reader
           (assigned (Pathlib.parse "model.pbix") Sample.start)
           (assigned (Pathlib.parse ".pbix") Sample.start)
           (Pathlib.parse "model.pbix") (Pathlib.parse ".pbix")
           Sample.two_entries_zip Sample.two_entries_zip
           Sample.two_entries Sample.two_entries).
  - reflexivity.
  - reflexivity.
  - reflexivity.
  - reflexivity.
  - reflexivity.
  - reflexivity.
  - reflexivity.
Defined.

(** ** Further properties of [print_contents] *)

Section Widths.

Local Open Scope N_scope.

Lemma length_group3 (s : string) :
  String.length (PyInt.group3 s)
  = (String.length s + (String.length s - 1) / 3)%nat.
Proof.
  induction s as [|c s IH]; [reflexivity | ].
  rewrite group3_cons.
  destruct (Nat.ltb_spec 0 (String.length s)) as [Hpos|Hzero];
    [ destruct (Nat.eqb_spec (String.length s mod 3) 0) as [Hmod|Hmod] | ];
    simpl andb; cbv iota; simpl String.length; rewrite IH;
    replace (S (String.length s) - 1)%nat with (String.length s) by lia;
    pose proof (Nat.div_mod_eq (String.length s) 3);
    pose proof (Nat.mod_upper_bound (String.length s) 3 ltac:(lia));
    pose proof (Nat.div_mod_eq (String.length s - 1) 3);
    pose proof (Nat.mod_upper_bound (String.length s - 1) 3 ltac:(lia));
    lia.
Qed.

Lemma str_length_upper (k : nat) (n : N) :
  n < 10 ^ N.of_nat (S k) → (String.length (PyInt.str n) <= S k)%nat.
Proof.
  revert n. induction k as [|k IH]; intros n Hn.
  - rewrite str_small by (simpl in Hn; lia). simpl. lia.
  - destruct (N.lt_ge_cases n 10) as [Hlt|Hge].
    + rewrite str_small by assumption. simpl. lia.
    + rewrite str_step, string_length_app by assumption. simpl String.length.
      rewrite Nat2N.inj_succ, N.pow_succ_r' in Hn.
      assert (n / 10 < 10 ^ N.of_nat (S k))
        by (apply N.Div0.div_lt_upper_bound; lia).
      specialize (IH (n / 10) ltac:(assumption)). lia.
Qed.

Lemma str_length_lower (k : nat) (n : N) :
  10 ^ N.of_nat k <= n → (S k <= String.length (PyInt.str n))%nat.
Proof.
  revert n. induction k as [|k IH]; intros n Hn.
  - pose proof (str_nonempty n). destruct (PyInt.str n); [congruence | simpl; lia].
  - rewrite Nat2N.inj_succ, N.pow_succ_r' in Hn.
    assert (1 <= 10 ^ N.of_nat k) by (apply N.lt_pred_le, N.neq_0_lt_0, N.pow_nonzero; lia).
    rewrite str_step, string_length_app by lia. simpl String.length.
    assert (10 ^ N.of_nat k <= n / 10) by (apply N.div_le_lower_bound; lia).
    specialize (IH (n / 10) ltac:(assumption)). lia.
Qed.

(** The length of the text of a size, by its magnitude. *)
Lemma size_text_length (n : N) :
  (n < 10000000 →
   (String.length (PyInt.format_comma n +:+ " bytes") <= 15)%nat)
  ∧ (10000000 <= n →
     (15 < String.length (PyInt.format_comma n +:+ " bytes"))%nat).
Proof.
  unfold PyInt.format_comma.
  rewrite string_length_app, length_group3. simpl (String.length " bytes").
  split; intros Hn.
  - pose proof (str_length_upper 6 n Hn) as Hlen.
    assert ((String.length (PyInt.str n) - 1) / 3 <= 2)%nat
      by (apply Nat.Div0.div_le_upper_bound; lia).
    lia.
  - pose proof (str_length_lower 7 n Hn) as Hlen.
    assert (2 <= (String.length (PyInt.str n) - 1) / 3)%nat
      by (apply Nat.div_le_lower_bound; lia).
    lia.
Qed.

(** A row is 76 characters wide, that is 60 for the name, a space and 15
    for the size, as long as the name has at most 60 characters and the
    entry is smaller than 10,000,000 bytes; from that size on the size
    text outgrows its column and the row is wider. *)
Theorem row_width (file_info : ZipInfo) (w : world) :
  (String.length (filename file_info) <= 60)%nat →
  ∃ row,
    print_item (entry_dict file_info) w = (inr tt, printed (Spec.line row) w)
    ∧ (file_size file_info < 10000000 → String.length row = 76%nat)
    ∧ (10000000 <= file_size file_info → (76 < String.length row)%nat).
Proof.
  intros Hname.
  exists (PyStr.ljust 60 (filename file_info) +:+ " "
          +:+ PyStr.rjust 15 (PyInt.format_comma (file_size file_info) +:+ " bytes")).
  split; [ apply print_item_run | ].
  rewrite !string_length_app, length_ljust, length_rjust.
  simpl (String.length " ").
  destruct (size_text_length (file_size file_info)) as [Hsmall Hbig].
  split; intros Hn; [ specialize (Hsmall Hn) | specialize (Hbig Hn) ]; lia.
Qed.

End Widths.

Lemma row_width_witness :
  ∃ row,
    print_item (entry_dict (MkZipInfo "DataModel" 2048)) Sample.start
    = (inr tt, printed (Spec.line row) Sample.start)
    ∧ ((2048 < 10000000)%N → String.length row = 76)
    ∧ ((10000000 <= 2048)%N → 76 < String.length row).
Proof.
  apply (row_width (MkZipInfo "DataModel" 2048) Sample.start).
  simpl. lia.
Defined.

Example row_of_ten_megabytes_is_wider :
  String.length (row_text (MkZipInfo "DataModel" 10000000)) = 60 + 1 + 16 + 1.
Proof. reflexivity. Qed.

Section RenderingMore.

Variable rcd : list Byte.byte → exn + list ZipInfo.

(** [print_contents] calls [list_contents] before it prints anything: when
    [list_contents] raises, [print_contents] raises the same exception and
    standard output is untouched; when [list_contents] returns,
    [print_contents] returns too (no lookup in a record fails) and only
    appends to standard output. *)
Theorem print_contents_follows_list_contents (w : world) :
  (∀ e w', list_contents rcd w = (inl e, w') →
           print_contents rcd w = (inl e, w))
  ∧ (∀ contents w', list_contents rcd w = (inr contents, w') →
                    ∃ text, print_contents rcd w = (inr tt, printed text w)).
Proof.
  split.
  - intros e w' Hrun.
    pose proof (list_contents_world rcd w) as Hw. rewrite Hrun in Hw.
    simpl in Hw. subst w'. apply print_contents_propagates. exact Hrun.
  - intros contents w' Hrun.
    destruct (list_contents_cases rcd w)
      as [[e Hfail] | (p & content & filelist & Hp & Hfs & Hzip & _)].
    + rewrite Hfail in Hrun. discriminate.
    + exists (report_text (Pathlib.name p) filelist).
      apply (print_contents_run rcd w p content filelist Hp Hfs Hzip).
Qed.

Lemma count_char_app (ch : ascii) (a b : string) :
  count_char ch (a +:+ b) = count_char ch a + count_char ch b.
Proof.
  induction a as [|c a IH]; [reflexivity | ].
  rewrite string_app_cons. simpl. rewrite IH. lia.
Qed.

Lemma count_char_replicate (ch c : ascii) (n : nat) :
  Ascii.eqb c ch = false → count_char ch (PyStr.replicate n c) = 0.
Proof. intros Hc. induction n as [|n IH]; simpl; [ | rewrite Hc ]; auto. Qed.

Lemma digit_char_not_newline (d : N) :
  (d < 10)%N → Ascii.eqb (PyInt.digit_char d) newline = false.
Proof.
  intros Hd.
  assert (d = 0 ∨ d = 1 ∨ d = 2 ∨ d = 3 ∨ d = 4 ∨ d = 5 ∨ d = 6 ∨ d = 7
          ∨ d = 8 ∨ d = 9)%N as Hcases by lia.
  repeat destruct Hcases as [-> | Hcases]; try subst d; reflexivity.
Qed.

Lemma count_newline_str (n : N) : count_char newline (PyInt.str n) = 0.
Proof.
  induction n as [n IH] using (well_founded_induction N.lt_wf_0).
  destruct (N.lt_ge_cases n 10) as [Hlt|Hge].
  - rewrite str_small by assumption. simpl.
    rewrite digit_char_not_newline by assumption. reflexivity.
  - rewrite str_step, count_char_app by assumption.
    rewrite IH by (apply N.div_lt; lia). simpl.
    rewrite digit_char_not_newline by (apply N.mod_lt; lia). reflexivity.
Qed.

Lemma count_newline_group3 (s : string) :
  count_char newline (PyInt.group3 s) = count_char newline s.
Proof.
  induction s as [|c s IH]; [reflexivity | ].
  rewrite group3_cons.
  destruct ((0 <? String.length s)%nat && (String.length s mod 3 =? 0)%nat);
    simpl; rewrite IH; reflexivity.
Qed.

Lemma count_newline_row (file_info : ZipInfo) :
  count_char newline (row_text file_info)
  = count_char newline (filename file_info) + 1.
Proof.
  unfold row_text, Spec.line, PyStr.ljust, PyStr.rjust, PyInt.format_comma.
  rewrite !count_char_app, !count_char_replicate by reflexivity.
  rewrite count_newline_group3, count_newline_str. simpl. lia.
Qed.

Lemma count_newline_rows (filelist : list ZipInfo) :
  Forall (λ file_info, count_char newline (filename file_info) = 0) filelist →
  count_char newline (String.concat EmptyString (map row_text filelist))
  = length filelist.
Proof.
  induction 1 as [|fi rest Hfi Hrest IH]; [reflexivity | ].
  assert (String.concat EmptyString (map row_text (fi :: rest))
          = row_text fi +:+ String.concat EmptyString (map row_text rest)) as ->.
  { simpl. destruct (map row_text rest); [ | reflexivity ].
    simpl. now rewrite string_app_nil_r. }
  rewrite count_char_app, count_newline_row, IH, Hfi. simpl. lia.
Qed.

(** When no file name contains a newline, the report has as many lines as
    the archive has entries, and five more: an empty line, the header, the
    separator, an empty line and the total. *)
Theorem report_line_count
        (w : world) (p : Pathlib.Path) (content : list Byte.byte)
        (filelist : list ZipInfo) :
  pbix_path (self w) = Some p →
  fs w (Pathlib.to_str p) = Found (RegularFile content) →
  rcd content = inr filelist →
  count_char newline (Pathlib.name p) = 0 →
  Forall (λ file_info, count_char newline (filename file_info) = 0) filelist →
  ∃ text,
    print_contents rcd w = (inr tt, printed text w)
    ∧ count_char newline text = length filelist + 5.
Proof.
  intros Hp Hfs Hzip Hname Hfiles.
  exists (report_text (Pathlib.name p) filelist).
  split; [ apply (print_contents_run rcd w p content filelist Hp Hfs Hzip) | ].
  unfold report_text, Spec.line.
  rewrite !count_char_app, count_newline_rows by assumption.
  rewrite count_char_replicate by reflexivity.
  rewrite count_newline_str, Hname. simpl. lia.
Qed.

End RenderingMore.

Lemma print_contents_follows_list_contents_witness :
  print_contents Sample.reader (assigned (Pathlib.parse "broken.pbix") Sample.start)
  = (inl (corrupt_archive_error (Pathlib.parse "broken.pbix")),
     assigned (Pathlib.parse "broken.pbix") Sample.start)
  ∧ ∃ text,
      print_contents Sample.reader (assigned (Pathlib.parse "model.pbix") Sample.start)
      = (inr tt, printed text (assigned (Pathlib.parse "model.pbix") Sample.start)).
Proof.
  split.
  - apply (proj1 (print_contents_follows_list_contents Sample.reader
                    (assigned (Pathlib.parse "broken.pbix") Sample.start))
             _ (assigned (Pathlib.parse "broken.pbix") Sample.start)).
    reflexivity.
  - apply (proj2 (print_contents_follows_list_contents Sample.reader
                    (assigned (Pathlib.parse "model.pbix") Sample.start))
             (map entry_dict Sample.two_entries)
             (assigned (Pathlib.parse "model.pbix") Sample.start)).
    reflexivity.
Defined.

Lemma report_line_count_witness :
  ∃ text,
    print_contents Sample.reader (assigned (Pathlib.parse "model.pbix") Sample.start)
    = (inr tt, printed text (assigned (Pathlib.parse "model.pbix") Sample.start))
    ∧ count_char newline text = 2 + 5.
Proof.
  apply (report_line_count Sample.reader
           (assigned (Pathlib.parse "model.pbix") Sample.start)
           (Pathlib.parse "model.pbix") Sample.two_entries_zip Sample.two_entries).
  - reflexivity.
  - reflexivity.
  - reflexivity.
  - reflexivity.
  - repeat constructor.
Defined.

(** ** The tests of the repository *)

Section Tests.

(** [test_analyzer_initialization_with_invalid_extension] passes exactly
    when a file or directory [test.txt] exists where the test runs; where
    the existence test finds none, [__init__] raises [FileNotFoundError]
    first and the test ends with that error. *)
Theorem test_invalid_extension_needs_the_file (w : world) :
  (fst (PyTest.test_analyzer_initialization_with_invalid_extension w) = inr tt
   ↔ ∃ n, fs w "test.txt" = Found n)
  ∧ ((∃ e, fs w "test.txt" = Fails e ∧ In e Spec.taken_for_absence) →
     fst (PyTest.test_analyzer_initialization_with_invalid_extension w)
     = inl (not_found_error "test.txt")).
Proof.
  unfold PyTest.test_analyzer_initialization_with_invalid_extension, PyTest.raises.
  unfold mbind, M_bind, bind.
  destruct (lookup_cases (fs w) (Pathlib.parse "test.txt"))
    as [Hex | [Habs | (err & Herr & Hign)]].
  - rewrite init_bad_suffix; [ | exact Hex | vm_compute; discriminate ].
    split.
    + split; [ intros _; exact Hex | reflexivity ].
    + intros Habs. destruct (exists_not_absent _ _ Hex Habs).
  - rewrite init_not_found by exact Habs.
    split; [ | reflexivity ].
    split; [ discriminate | intros Hex; destruct (exists_not_absent _ _ Hex Habs) ].
  - rewrite (init_lookup_error "test.txt" w err Herr Hign).
    change (Pathlib.to_str (Pathlib.parse "test.txt")) with "test.txt" in *.
    split.
    + split.
      * destruct err; simpl in *; first [discriminate | intuition congruence].
      * intros [n Hn]. congruence.
    + intros (e & He & Hige). congruence.
Qed.

(** [test_analyzer_initialization_with_nonexistent_file] passes exactly
    when the existence test finds nothing named [nonexistent.pbix] where
    the test runs. *)
Theorem test_nonexistent_file_needs_no_file (w : world) :
  fst (PyTest.test_analyzer_initialization_with_nonexistent_file w) = inr tt
  ↔ ∃ e, fs w "nonexistent.pbix" = Fails e ∧ In e Spec.taken_for_absence.
Proof.
  unfold PyTest.test_analyzer_initialization_with_nonexistent_file, PyTest.raises.
  unfold mbind, M_bind, bind.
  destruct (lookup_cases (fs w) (Pathlib.parse "nonexistent.pbix"))
    as [Hex | [Habs | (err & Herr & Hign)]].
  - rewrite init_ok; [ | exact Hex | reflexivity ].
    split; [ discriminate | intros Habs; destruct (exists_not_absent _ _ Hex Habs) ].
  - rewrite init_not_found by exact Habs.
    split; [ intros _; exact Habs | reflexivity ].
  - rewrite (init_lookup_error "nonexistent.pbix" w err Herr Hign).
    change (Pathlib.to_str (Pathlib.parse "nonexistent.pbix"))
      with "nonexistent.pbix" in *.
    split.
    + destruct err; simpl in *; first [discriminate | intuition congruence].
    + intros (e & He & Hige). congruence.
Qed.

End Tests.

Lemma test_invalid_extension_needs_the_file_witness :
  fst (PyTest.test_analyzer_initialization_with_invalid_extension Sample.start)
  = inl (not_found_error "test.txt")
  ∧ fst (PyTest.test_analyzer_initialization_with_invalid_extension
           (MkWorld (MkInstance None) (λ _, Found (RegularFile [])) ""))
    = inr tt.
Proof.
  split.
  - apply (proj2 (test_invalid_extension_needs_the_file Sample.start)).
    exists ENOENT. split; [reflexivity | simpl; auto].
  - apply (proj2 (proj1 (test_invalid_extension_needs_the_file
                           (MkWorld (MkInstance None) (λ _, Found (RegularFile [])) "")))).
    eexists. reflexivity.
Defined.

Lemma test_nonexistent_file_needs_no_file_witness :
  fst (PyTest.test_analyzer_initialization_with_nonexistent_file Sample.start) = inr tt.
Proof.
  apply (proj2 (test_nonexistent_file_needs_no_file Sample.start)).
  exists ENOENT. split; [reflexivity | simpl; auto].
Defined.
